(** * Washington minimum-wage map: the loader and the renderer of [p.py]

    A shallow embedding of the script's two functions, [get_wa_counties]
    (lines 8-65) and [create_wa_minimum_wage_map] (lines 68-135), with the
    Python values they handle, the exceptions they raise, the console and
    the file system they write to, followed by the properties of the
    specification. *)

From Stdlib Require Import Floats ZArith Ascii.
From stdpp Require Import gmap strings list pretty.

#[local] Set Warnings "-inexact-float,-register-all".
#[local] Open Scope string_scope.
#[local] Open Scope Z_scope.

(** ** Python values

    What [response.json()] can hold: JSON scalars, arrays and objects (the
    members of an object in document order). *)

Inductive pyval :=
  | VNone
  | VBool (b : bool)
  | VInt (n : Z)
  | VFloat (x : float)
  | VStr (s : string)
  | VList (l : list pyval)
  | VDict (d : list (string * pyval)).

(** ** Exceptions and results *)

Inductive exn :=
  | Exception (msg : string)      (* [raise Exception(msg)], line 61 *)
  | KeyError (key : string)       (* a missing dict key or frame column *)
  | TypeError                     (* an operand of the wrong type *)
  | OverflowError                 (* an int too large for a float *)
  | Raised (cls msg : string).    (* raised inside requests or the JSON decoder *)

Inductive result (A : Type) :=
  | Ok (a : A)
  | Err (e : exn).
Arguments Ok {A} a.
Arguments Err {A} e.

#[export] Instance result_ret : MRet result := λ A a, Ok a.
#[export] Instance result_bind : MBind result := λ A B k r,
  match r with
  | Ok a => k a
  | Err e => Err e
  end.

(** [d[k]] on a dict with str keys. *)
Definition getitem (d : gmap string pyval) (k : string) : result pyval :=
  match d !! k with
  | Some v => Ok v
  | None => Err (KeyError k)
  end.

(** ** The operators of Python the script applies to a value *)

(** [v == s] for a str literal [s]: only a str is ever equal to a str. *)
Definition py_eq_str (v : pyval) (s : string) : bool :=
  match v with
  | VStr t => String.eqb t s
  | _ => false
  end.

(** An int compared with a float: Python compares the exact values. *)
Definition int_eq_float (n : Z) (c : float) : bool :=
  match Prim2SF c with
  | S754_zero _ => n =? 0
  | S754_finite s m e =>
      let v := if s then Z.neg m else Z.pos m in
      if 0 <=? e then n =? v * 2 ^ e
      else (v mod 2 ^ (- e) =? 0) && (n =? v / 2 ^ (- e))
  | _ => false
  end.

(** [v == c] for a float literal [c]: floats by IEEE equality, ints and
    bools (an int subclass) by value, anything else is unequal. *)
Definition py_eq_float (v : pyval) (c : float) : bool :=
  match v with
  | VFloat x => PrimFloat.eqb x c
  | VInt n => int_eq_float n c
  | VBool b => int_eq_float (Z.b2z b) c
  | _ => false
  end.

(** [float(n)]: the nearest double, or OverflowError. *)
Definition float_of_int (n : Z) : result float :=
  let x := SF2Prim (binary_normalize prec emax n 0 false) in
  if PrimFloat.is_infinity x then Err OverflowError else Ok x.

Definition as_int (v : pyval) : option Z :=
  match v with
  | VInt n => Some n
  | VBool b => Some (Z.b2z b)
  | _ => None
  end.

Definition as_float (v : pyval) : option (result float) :=
  match v with
  | VFloat x => Some (Ok x)
  | _ => float_of_int <$> as_int v
  end.

(** [a + b]: str and list concatenate with their own kind, numbers add
    (as ints when both are, as floats otherwise), the rest is a TypeError. *)
Definition py_add (a b : pyval) : result pyval :=
  match a, b with
  | VStr s, VStr t => Ok (VStr (s ++ t))
  | VList l, VList k => Ok (VList (l ++ k))
  | _, _ =>
      match as_int a, as_int b with
      | Some m, Some n => Ok (VInt (m + n))
      | _, _ =>
          match as_float a, as_float b with
          | Some rx, Some ry => x ← rx; y ← ry; Ok (VFloat (x + y)%float)
          | _, _ => Err TypeError
          end
      end
  end.

(** [d.get(k, fallback)] on a dict whose keys are all str: a str key is
    looked up, an unhashable key raises, any other key is absent. *)
Definition dict_get (d : gmap string string) (k : pyval) (fallback : string)
    : result string :=
  match k with
  | VStr s => Ok (default fallback (d !! s))
  | VList _ | VDict _ => Err TypeError
  | _ => Ok fallback
  end.

(** ** Features and frames *)

(** A GeoJSON feature: its geometry member, kept as parsed, and its
    property bag. *)
Record feature := Feature {
  geometry : pyval;
  properties : gmap string pyval;
}.

(** [f["properties"][k] = v]. *)
Definition set_property (k : string) (v : pyval) (f : feature) : feature :=
  {| geometry := geometry f; properties := <[k := v]> (properties f) |}.

(** A GeoDataFrame: one row per feature, in order; the columns are the
    property keys, a row lacking one holds NaN there. *)
Record GeoDataFrame := Frame {
  crs : string;
  rows : list feature;
}.

(** [gpd.GeoDataFrame.from_features(features, crs=)]: one row per feature,
    in the order of the features.  Of what geopandas does with a row the
    model keeps the str cells and the order; the geometry object it
    builds from the geometry member, and the dtype it gives a column of
    numbers, are the library's and are left out of the statements below,
    which speak of a frame that was returned, of its str cells and of
    the columns the script assigns itself. *)
Definition from_features (fs : list feature) (crs : string) : GeoDataFrame :=
  {| crs := crs; rows := fs |}.

(** ** The console, the file system and the network *)

Inductive line :=
  | ApiRequestFailed (status_code : Z)
      (* f"API request failed with status code: {response.status_code}" *)
  | ErrorGettingCountyData (e : exn)
      (* f"Error getting county data: {e}" *)
  | MapSaved (output_file : string).
      (* f"Interactive map has been saved as '{output_file}'" *)

(** What [requests.get(api_url)] comes back with: an exception, or a
    response with its status code and what [response.json()] would give,
    the list under ["features"] or the exception raised on the way to it. *)
Inductive fetch :=
  | RequestRaises (e : exn)
  | Response (status_code : Z) (json : result (list feature)).

Definition requests_get (net : fetch) : result (Z * result (list feature)) :=
  match net with
  | RequestRaises e => Err e
  | Response status_code json => Ok (status_code, json)
  end.

(** ** The map object and the document written from it *)

Record style := Style {
  fillColor : string;
  color : string;
  weight : Z;
  fillOpacity : float;
}.

Record GeoJsonTooltip := Tooltip {
  fields : list string;
  aliases : list string;
  tooltip_style : string;
}.

(** [folium.GeoJson(data, name=, style_function=, tooltip=)]. *)
Record GeoJson := Layer {
  data : list feature;
  name : string;
  layer_style_function : feature → result style;
  tooltip : GeoJsonTooltip;
}.

(** [folium.Map(location=, zoom_start=, tiles=)] with the layers and the
    HTML elements added to it, in the order they were added. *)
Record Map := FoliumMap {
  location : float * float;
  zoom_start : Z;
  tiles : string;
  layers : list GeoJson;
  html : list string;
}.

(** What [m.save] puts into the file, up to folium's serialisation into
    HTML text: every layer with the style of each of its features. *)
Record styled_layer := StyledLayer {
  styled_features : list (feature * style);
  styled_name : string;
  styled_tooltip : GeoJsonTooltip;
}.

Record document := Document {
  doc_location : float * float;
  doc_zoom_start : Z;
  doc_tiles : string;
  doc_layers : list styled_layer;
  doc_html : list string;
}.

Record world := World {
  console : list line;
  files : gmap string document;
}.

(** A computation of the script: it may print, write a file and raise. *)
Definition M (A : Type) : Type := world → world * result A.

#[export] Instance M_ret : MRet M := λ A a w, (w, Ok a).
#[export] Instance M_bind : MBind M := λ A B k m w,
  match m w with
  | (w', Ok a) => k a w'
  | (w', Err e) => (w', Err e)
  end.

Definition raise {A} (e : exn) : M A := λ w, (w, Err e).

Definition lift {A} (r : result A) : M A := λ w, (w, r).

Definition print (l : line) : M unit := λ w,
  ({| console := console w ++ [l]; files := files w |}, Ok tt).

Definition write_file (name : string) (content : document) : M unit := λ w,
  ({| console := console w; files := <[name := content]> (files w) |}, Ok tt).

(** [try: body / except Exception as e: handler(e)]. *)
Definition try_except {A} (body : M A) (handler : exn → M A) : M A := λ w,
  match body w with
  | (w', Ok a) => (w', Ok a)
  | (w', Err e) => handler e w'
  end.

(** ** The boundary loader, [get_wa_counties] *)

(** Lines 32-46. *)
Definition county_names : gmap string string :=
  list_to_map [
    ("53001", "Adams"); ("53003", "Asotin"); ("53005", "Benton");
    ("53007", "Chelan"); ("53009", "Clallam"); ("53011", "Clark");
    ("53013", "Columbia"); ("53015", "Cowlitz"); ("53017", "Douglas");
    ("53019", "Ferry"); ("53021", "Franklin"); ("53023", "Garfield");
    ("53025", "Grant"); ("53027", "Grays Harbor"); ("53029", "Island");
    ("53031", "Jefferson"); ("53033", "King"); ("53035", "Kitsap");
    ("53037", "Kittitas"); ("53039", "Klickitat"); ("53041", "Lewis");
    ("53043", "Lincoln"); ("53045", "Mason"); ("53047", "Okanogan");
    ("53049", "Pacific"); ("53051", "Pend Oreille"); ("53053", "Pierce");
    ("53055", "San Juan"); ("53057", "Skagit"); ("53059", "Skamania");
    ("53061", "Snohomish"); ("53063", "Spokane"); ("53065", "Stevens");
    ("53067", "Thurston"); ("53069", "Wahkiakum"); ("53071", "Walla Walla");
    ("53073", "Whatcom"); ("53075", "Whitman"); ("53077", "Yakima")
  ].

(** Lines 25-28, the comprehension
    [[f for f in all_counties["features"] if f["properties"]["STATE"] == "53"]]:
    the features are visited in order, and a feature without a STATE
    property raises. *)
Fixpoint select_state (fs : list feature) : result (list feature) :=
  match fs with
  | [] => Ok []
  | f :: fs =>
      state ← getitem (properties f) "STATE";
      selected ← select_state fs;
      Ok (if py_eq_str state "53" then f :: selected else selected)
  end.

(** Lines 50-54, the body of the enrichment loop for one feature. *)
Definition add_county_name (f : feature) : result feature :=
  fips ← getitem (properties f) "COUNTY";
  state_fips ← getitem (properties f) "STATE";
  full_fips ← py_add state_fips fips;
  name ← dict_get county_names full_fips "Unknown";
  let f := set_property "NAME" (VStr name) f in
  namelsad ← dict_get county_names full_fips "Unknown";
  Ok (set_property "NAMELSAD" (VStr (namelsad ++ " County")) f).

Definition get_wa_counties (net : fetch) : M GeoDataFrame :=
  try_except
    ('(status_code, json) ← lift (requests_get net);
     if status_code =? 200 then
       all_counties ← lift json;
       wa_counties ← lift (select_state all_counties);
       wa_counties ← lift (mapM add_county_name wa_counties);
       mret (from_features wa_counties "EPSG:4326")
     else
       _ ← print (ApiRequestFailed status_code);
       raise (Exception "Failed to fetch county data from API"))
    (λ e,
       _ ← print (ErrorGettingCountyData e);
       raise e).

(** ** Frame operations of the wage join *)

Definition has_column (c : string) (df : GeoDataFrame) : bool :=
  existsb (λ r, bool_decide (is_Some (properties r !! c))) (rows df).

(** [df[c]]: the cells of a column, a missing one being NaN; KeyError when
    no row of the frame brought that column. *)
Definition column (c : string) (df : GeoDataFrame)
    : result (list (option pyval)) :=
  if has_column c df then Ok ((λ r, properties r !! c) <$> rows df)
  else Err (KeyError c).

(** [series == s]: element-wise, NaN equals nothing. *)
Definition series_eq_str (s : string) (cells : list (option pyval))
    : list bool :=
  from_option (λ v, py_eq_str v s) false <$> cells.

(** [df[c] = v] for a scalar [v]. *)
Definition set_column (c : string) (v : pyval) (df : GeoDataFrame)
    : GeoDataFrame :=
  {| crs := crs df; rows := set_property c v <$> rows df |}.

(** [df[c] = series]. *)
Definition set_column_series (c : string) (cells : list pyval)
    (df : GeoDataFrame) : GeoDataFrame :=
  {| crs := crs df; rows := zip_with (set_property c) cells (rows df) |}.

(** [df.loc[mask, c] = v]. *)
Definition loc_set (mask : list bool) (c : string) (v : pyval)
    (df : GeoDataFrame) : GeoDataFrame :=
  {| crs := crs df;
     rows := zip_with (λ (b : bool) r, if b then set_property c v r else r)
               mask (rows df) |}.

(** [df.loc[mask, c] += s]: the selected cells are read, added to and
    written back. *)
Definition loc_iadd (mask : list bool) (c : string) (s : pyval)
    (df : GeoDataFrame) : result GeoDataFrame :=
  new_rows ← mapM (λ '(b, r),
                if b : bool then
                  cell ← getitem (properties r) c;
                  v ← py_add cell s;
                  Ok (set_property c v r)
                else Ok r)
             (zip mask (rows df));
  Ok {| crs := crs df; rows := new_rows |}.

(** A cell of a float64 column: the column of line 73 is created from a
    float scalar, so it holds floats, and NaN where a value is missing. *)
Definition to_float64 (cell : option pyval) : float :=
  match cell with
  | Some (VFloat x) => x
  | _ => nan
  end.

(** ** The map renderer, [create_wa_minimum_wage_map] *)

(** Lines 85-93. *)
Definition style_function (feature : feature) : result style :=
  wage ← getitem (properties feature) "min_wage_numeric";
  if py_eq_float wage 30.09 then
    Ok {| fillColor := "#ffd700"; color := "#000000"; weight := 1;
          fillOpacity := 0.7 |}
  else if py_eq_float wage 26.54 then
    Ok {| fillColor := "#f5c855"; color := "#000000"; weight := 1;
          fillOpacity := 0.7 |}
  else
    Ok {| fillColor := "#ffeeba"; color := "#000000"; weight := 1;
          fillOpacity := 0.7 |}.

Definition dq : string := String "034"%char "".
Definition nl : string := String "010"%char "".
Definition quoted (s : string) : string := dq ++ s ++ dq.

(** Lines 111-120. *)
Definition legend_html : string :=
  String.concat nl [
    "";
    "    <div style=" ++ quoted (String.concat nl [
      "position: fixed; bottom: 50px; left: 50px; width: 300px; height: 130px; ";
      "    background-color: white; border:2px solid grey; z-index:9999; font-size:14px;";
      "    padding: 10px; border-radius: 5px;"]) ++ ">";
    "    <b>Minimum Wage (CAD/hour)</b> <br>";
    "    <i style=" ++ quoted "background: #ffd700; width: 15px; height: 15px; display: inline-block;" ++ "></i> King County: 30.09 <br>";
    "    <i style=" ++ quoted "background: #f5c855; width: 15px; height: 15px; display: inline-block;" ++ "></i> Whatcom County: 26.54 (starting May 1st) <br>";
    "    <i style=" ++ quoted "background: #ffeeba; width: 15px; height: 15px; display: inline-block;" ++ "></i> All other counties: 23.70";
    "    </div>";
    "    "].

(** Lines 124-127. *)
Definition title_html : string :=
  String.concat nl [
    "";
    "    <h3 align=" ++ quoted "center" ++ " style=" ++ quoted "font-size:20px" ++ "><b>Minimum Wage by County in Washington State (CAD)</b></h3>";
    "    <p align=" ++ quoted "center" ++ " style=" ++ quoted "font-size:14px" ++ ">All Counties in Gold Shades - Richer Counties in Darker Gold</p>";
    "    "].

(** [counties_gdf.__geo_interface__]: the rows as features again, in
    their order, every column but the geometry a property.  The str
    cells and the float cells of the wage column come out as they are;
    how the library writes a geometry or a missing cell is left out of
    the statements below. *)
Definition geo_interface (df : GeoDataFrame) : list feature := rows df.

Definition add_layer (l : GeoJson) (m : Map) : Map :=
  {| location := location m; zoom_start := zoom_start m; tiles := tiles m;
     layers := layers m ++ [l]; html := html m |}.

Definition add_html (element : string) (m : Map) : Map :=
  {| location := location m; zoom_start := zoom_start m; tiles := tiles m;
     layers := layers m; html := html m ++ [element] |}.

(** Rendering evaluates the style function of a layer once per feature. *)
Definition render_layer (l : GeoJson) : result styled_layer :=
  styled ← mapM (λ f, st ← layer_style_function l f; Ok (f, st)) (data l);
  Ok {| styled_features := styled; styled_name := name l;
        styled_tooltip := tooltip l |}.

Definition render (m : Map) : result document :=
  rendered ← mapM render_layer (layers m);
  Ok {| doc_location := location m; doc_zoom_start := zoom_start m;
        doc_tiles := tiles m; doc_layers := rendered; doc_html := html m |}.

(** [m.save(output_file)]. *)
Definition save (m : Map) (output_file : string) : M unit :=
  doc ← lift (render m);
  write_file output_file doc.

Section renderer.

(** [str(x)] of a float64, which [astype(str)] applies to every cell. *)
Variable float_str : float → string.

Definition astype_str (cells : list (option pyval)) : list string :=
  (λ cell, float_str (to_float64 cell)) <$> cells.

(** Lines 73-79: the wage columns. *)
Definition wage_join (counties_gdf : GeoDataFrame) : result GeoDataFrame :=
  let counties_gdf :=
    set_column "min_wage_numeric" (VFloat 23.70) counties_gdf in
  names ← column "NAME" counties_gdf;
  let counties_gdf :=
    loc_set (series_eq_str "King" names)
      "min_wage_numeric" (VFloat 30.09) counties_gdf in
  names ← column "NAME" counties_gdf;
  let counties_gdf :=
    loc_set (series_eq_str "Whatcom" names)
      "min_wage_numeric" (VFloat 26.54) counties_gdf in
  numeric ← column "min_wage_numeric" counties_gdf;
  let counties_gdf :=
    set_column_series "min_wage_cad"
      ((λ t, VStr (t ++ " Canadian Dollars an hour")) <$> astype_str numeric)
      counties_gdf in
  names ← column "NAME" counties_gdf;
  loc_iadd (series_eq_str "Whatcom" names)
    "min_wage_cad" (VStr " starting May 1st") counties_gdf.

Definition create_wa_minimum_wage_map (net : fetch) : M string :=
  counties_gdf ← get_wa_counties net;
  counties_gdf ← lift (wage_join counties_gdf);
  let m := {| location := (47.5, -120.5)%float; zoom_start := 7;
              tiles := "CartoDB positron"; layers := []; html := [] |} in
  let tooltip :=
    {| fields := ["NAME"; "min_wage_cad"];
       aliases := ["County: "; "Minimum Wage: "];
       tooltip_style := "background-color: white; color: #333333; font-family: arial; font-size: 12px; padding: 10px;" |} in
  let m :=
    add_layer {| data := geo_interface counties_gdf;
                 name := "Washington Counties";
                 layer_style_function := style_function;
                 tooltip := tooltip |} m in
  let m := add_html legend_html m in
  let m := add_html title_html m in
  let output_file := "washington_minimum_wage_cad_map.html" in
  _ ← save m output_file;
  _ ← print (MapSaved output_file);
  mret output_file.

End renderer.

(** ** [str] of a float

    Python prints a double as the shortest decimal that reads back as the
    same double, positionally between 1e-4 and 1e16 and with an exponent
    outside.  The join is stated for any printer; this one makes its
    strings concrete. *)

(** A positive rational [a / b], [b > 0]. *)
Definition ratio : Type := Z * Z.
Definition pow10 (k : Z) : ratio := if 0 <=? k then (10 ^ k, 1) else (1, 10 ^ (- k)).
Definition pow2 (k : Z) : ratio := if 0 <=? k then (2 ^ k, 1) else (1, 2 ^ (- k)).
Definition rmul (x y : ratio) : ratio := (x.1 * y.1, x.2 * y.2).
Definition rscale (n : Z) (x : ratio) : ratio := (n * x.1, x.2).
Definition rcompare (x y : ratio) : comparison := (x.1 * y.2 ?= y.1 * x.2).
Definition rltb (x y : ratio) : bool := match rcompare x y with Lt => true | _ => false end.
Definition rleb (x y : ratio) : bool := match rcompare x y with Gt => false | _ => true end.
(** [|x - y|] *)
Definition rdist (x y : ratio) : ratio := (Z.abs (x.1 * y.2 - y.1 * x.2), x.2 * y.2).

(** The least [k] with [x < 10^k], for [x] between [2^b] and [2^(b+1)]:
    the scan starts just below [b * log10 2]. *)
Fixpoint first_power (fuel : nat) (k : Z) (x : ratio) : Z :=
  match fuel with
  | O => k
  | S fuel => if rltb x (pow10 k) then k else first_power fuel (k + 1) x
  end.

Definition decimal_point (b : Z) (x : ratio) : Z :=
  first_power 4 (b * 30103 / 100000 - 1) x.

Section shortest.
Variables (x lo hi : ratio) (closed : bool) (decpt : Z).

Definition reads_back (c : ratio) : bool :=
  if closed then rleb lo c && rleb c hi else rltb lo c && rltb c hi.

(** The integer [d] of [n] digits with [d * 10^(decpt - n)] nearest to
    [x] among those that read back as [x], if there is one. *)
Definition candidate (n : Z) : option Z :=
  let unit := pow10 (decpt - n) in
  let q := (x.1 * unit.2) / (x.2 * unit.1) in
  let below := rscale q unit in
  let above := rscale (q + 1) unit in
  let pick_below := if reads_back below then Some q else None in
  let pick_above := if reads_back above then Some (q + 1) else None in
  match rcompare (rdist x below) (rdist x above) with
  | Lt => from_option Some pick_above pick_below
  | Gt => from_option Some pick_below pick_above
  | Eq => if Z.even q then from_option Some pick_above pick_below
          else from_option Some pick_below pick_above
  end.

Fixpoint shortest (fuel : nat) (n : Z) : Z * Z :=
  match fuel with
  | O => (0, n)
  | S fuel =>
      match candidate n with
      | Some d => (d, n)
      | None => shortest fuel (n + 1)
      end
  end.
End shortest.

Fixpoint strip_zeros (fuel : nat) (d n : Z) : Z * Z :=
  match fuel with
  | O => (d, n)
  | S fuel =>
      if (d mod 10 =? 0) && (1 <? n) then strip_zeros fuel (d / 10) (n - 1)
      else (d, n)
  end.

Definition zeros (n : Z) : string := String.concat "" (replicate (Z.to_nat n) "0").

Definition take_str (n : Z) (s : string) : string := String.substring 0 (Z.to_nat n) s.
Definition drop_str (n : Z) (s : string) : string :=
  String.substring (Z.to_nat n) (String.length s - Z.to_nat n) s.

(** The digits [ds] with the decimal point after the first [decpt] of
    them, laid out as [repr] does. *)
Definition layout (ds : string) (decpt : Z) : string :=
  let nd := Z.of_nat (String.length ds) in
  if (-4 <? decpt) && (decpt <=? 16) then
    if decpt <=? 0 then "0." ++ zeros (- decpt) ++ ds
    else if decpt <? nd then take_str decpt ds ++ "." ++ drop_str decpt ds
    else ds ++ zeros (decpt - nd) ++ ".0"
  else
    let e := decpt - 1 in
    take_str 1 ds ++ (if 1 <? nd then "." ++ drop_str 1 ds else "")
      ++ "e" ++ (if e <? 0 then "-" else "+")
      ++ (if Z.abs e <? 10 then "0" else "") ++ pretty (Z.abs e).

Definition float_repr (f : float) : string :=
  match Prim2SF f with
  | S754_nan => "nan"
  | S754_infinity s => if s then "-inf" else "inf"
  | S754_zero s => if s then "-0.0" else "0.0"
  | S754_finite s m e =>
      let m := Z.pos m in
      let quarter := pow2 (e - 2) in
      let x := rscale (4 * m) quarter in
      let hi := rscale (4 * m + 2) quarter in
      let lo :=
        if (m =? 2 ^ 52) && (-1074 <? e) then rscale (4 * m - 1) quarter
        else rscale (4 * m - 2) quarter in
      let decpt := decimal_point (Z.log2 m + e) x in
      let '(d, n) := shortest x lo hi (Z.even m) decpt 17 1 in
      let '(d, n) := strip_zeros 17 d n in
      let '(d, decpt) :=
        if d =? 10 ^ n then (d / 10 ^ n, decpt + 1) else (d, decpt) in
      (if s then "-" else "") ++ layout (pretty d) decpt
  end.

(** * The vocabulary of the properties *)

(** ** Selected, named and loaded features *)

(** The state-code property of a feature is the str [s]. *)
Definition has_state (s : string) (f : feature) : Prop :=
  properties f !! "STATE" = Some (VStr s).

#[export] Instance property_is_str_dec (c s : string) (f : feature) :
  Decision (properties f !! c = Some (VStr s)).
Proof.
  destruct (properties f !! c) as [[| | | |t| |]|];
    try (right; congruence).
  destruct (decide (t = s)); [left|right]; congruence.
Defined.

#[export] Instance has_state_dec s f : Decision (has_state s f).
Proof. unfold has_state. apply _. Defined.

(** The two names written for the resolved short name [n]. *)
Definition with_names (n : string) (f : feature) : feature :=
  set_property "NAMELSAD" (VStr (n ++ " County"))
    (set_property "NAME" (VStr n) f).

(** The enriched feature [r] is the feature [f] with its geometry and
    with every property but the two names as they were (lines 49-54). *)
Definition loaded_from (f r : feature) : Prop :=
  geometry r = geometry f
  ∧ ∀ k, k ≠ "NAME" → k ≠ "NAMELSAD" → properties r !! k = properties f !! k.

(** The row [r] stands for the selected feature [f]: both have the state
    code "53" and the same str county code. *)
Definition same_codes (f r : feature) : Prop :=
  ∃ c, properties f !! "STATE" = Some (VStr "53")
       ∧ properties f !! "COUNTY" = Some (VStr c)
       ∧ properties r !! "STATE" = Some (VStr "53")
       ∧ properties r !! "COUNTY" = Some (VStr c).

(** The exception of line 61. *)
Definition fetch_failed : exn :=
  Exception "Failed to fetch county data from API".

(** The world after more lines went to the console. *)
Definition logged (ls : list line) (w : world) : world :=
  {| console := console w ++ ls; files := files w |}.

(** ** Names, rates and display strings of a row *)

(** The NAME cell of a row is the str [n]: the test of the masks. *)
Definition named (n : string) (r : feature) : bool :=
  from_option (λ v, py_eq_str v n) false (properties r !! "NAME").

(** The resolved name of a row is the str [n]. *)
Definition has_name (n : string) (r : feature) : Prop :=
  properties r !! "NAME" = Some (VStr n).

#[export] Instance has_name_dec n r : Decision (has_name n r).
Proof. unfold has_name. apply _. Defined.

(** A row holds the numeric rate and the display string. *)
Definition carries (r : feature) (rate : float) (text : string) : Prop :=
  properties r !! "min_wage_numeric" = Some (VFloat rate)
  ∧ properties r !! "min_wage_cad" = Some (VStr text).

(** The three rates of lines 73-75. *)
Inductive tier := DefaultRate | KingOverride | WhatcomOverride.

Definition rate_of (t : tier) : float :=
  match t with
  | DefaultRate => 23.70
  | KingOverride => 30.09
  | WhatcomOverride => 26.54
  end.

(** The tier the masks of lines 74-75 give a row, read off its name. *)
Definition tier_of (r : feature) : tier :=
  if named "Whatcom" r then WhatcomOverride
  else if named "King" r then KingOverride
  else DefaultRate.

(** The three fill descriptors of lines 89, 91 and 93. *)
Definition rich_gold : style :=
  {| fillColor := "#ffd700"; color := "#000000"; weight := 1;
     fillOpacity := 0.7 |}.

Definition medium_gold : style :=
  {| fillColor := "#f5c855"; color := "#000000"; weight := 1;
     fillOpacity := 0.7 |}.

Definition light_gold : style :=
  {| fillColor := "#ffeeba"; color := "#000000"; weight := 1;
     fillOpacity := 0.7 |}.

Section row_view.

Variable float_str : float → string.

(** The display string of line 78. *)
Definition wage_text (rate : float) : string :=
  float_str rate ++ " Canadian Dollars an hour".

(** The display string of a tier: line 78, and line 79 for Whatcom. *)
Definition text_of (t : tier) : string :=
  match t with
  | WhatcomOverride => wage_text (rate_of t) ++ " starting May 1st"
  | _ => wage_text (rate_of t)
  end.

(** What lines 73-79 leave in one row. *)
Definition joined_row (r : feature) : feature :=
  set_property "min_wage_cad" (VStr (text_of (tier_of r)))
    (set_property "min_wage_numeric" (VFloat (rate_of (tier_of r))) r).

End row_view.

(** ** Sample documents *)

Definition county_feature (state county : string) : feature :=
  {| geometry := VDict [("type", VStr "Polygon"); ("coordinates", VList [])];
     properties := {[ "STATE" := VStr state; "COUNTY" := VStr county ]} |}.

(** A Washington code the table lacks. *)
Definition unmapped_feature : feature := county_feature "53" "999".

(** King, a county of Oregon, Whatcom, Adams and the unmapped code. *)
Definition sample_counties : list feature :=
  [county_feature "53" "033"; county_feature "41" "051";
   county_feature "53" "073"; county_feature "53" "001"; unmapped_feature].

(** A county of Oregon and the 39 codes of the table. *)
Definition washington_counties : list feature :=
  county_feature "41" "051"
  :: ((λ code, county_feature (String.substring 0 2 code)
                 (String.substring 2 3 code))
      <$> (map_to_list county_names).*1).

Definition start : world := {| console := []; files := ∅ |}.

(** The frame the loader returns from [start], or an empty one. *)
Definition loaded (net : fetch) : GeoDataFrame :=
  match (get_wa_counties net start).2 with
  | Ok gdf => gdf
  | Err _ => from_features [] ""
  end.

(** The frame with its wage columns, printed with [float_repr]. *)
Definition joined (df : GeoDataFrame) : GeoDataFrame :=
  match wage_join float_repr df with
  | Ok df' => df'
  | Err _ => df
  end.

Definition sample_frame : GeoDataFrame :=
  loaded (Response 200 (Ok sample_counties)).

Definition washington_frame : GeoDataFrame :=
  loaded (Response 200 (Ok washington_counties)).

Definition output_name : string := "washington_minimum_wage_cad_map.html".

(** The styles of the features of a saved document, layer after layer. *)
Definition saved_styles (d : document) : list style :=
  (doc_layers d ≫= styled_features).*2.

(** ** The failures of the enrichment and the saved map *)

(** What the enrichment raises on a selected feature, if anything: a
    missing COUNTY is a KeyError at line 50, a COUNTY that is no str a
    TypeError at line 52. *)
Definition county_error (f : feature) : option exn :=
  match properties f !! "COUNTY" with
  | None => Some (KeyError "COUNTY")
  | Some (VStr _) => None
  | Some _ => Some TypeError
  end.

(** A joined row [j] is the row [r] with its geometry and with every
    column but the two wage columns as they were. *)
Definition joined_from (r j : feature) : Prop :=
  geometry j = geometry r
  ∧ ∀ k, k ≠ "min_wage_numeric" → k ≠ "min_wage_cad" →
         properties j !! k = properties r !! k.

(** The fill descriptor the legend of lines 116-118 shows for a tier. *)
Definition style_of (t : tier) : style :=
  match t with
  | KingOverride => rich_gold
  | WhatcomOverride => medium_gold
  | DefaultRate => light_gold
  end.

(** The tooltip of lines 96-100. *)
Definition county_tooltip : GeoJsonTooltip :=
  {| fields := ["NAME"; "min_wage_cad"];
     aliases := ["County: "; "Minimum Wage: "];
     tooltip_style := "background-color: white; color: #333333; font-family: arial; font-size: 12px; padding: 10px;" |}.

(** The document of lines 82-128 over the rows of a joined frame, each
    with the style of its tier. *)
Definition map_document (features : list feature) : document :=
  {| doc_location := (47.5, -120.5)%float; doc_zoom_start := 7;
     doc_tiles := "CartoDB positron";
     doc_layers :=
       [{| styled_features := (λ j, (j, style_of (tier_of j))) <$> features;
           styled_name := "Washington Counties";
           styled_tooltip := county_tooltip |}];
     doc_html := [legend_html; title_html] |}.

(** The world after a successful run: one line more, one file written. *)
Definition saved (doc : document) (w : world) : world :=
  {| console := console w ++ [MapSaved output_name];
     files := <[output_name := doc]> (files w) |}.

(** A document whose second Washington feature has no COUNTY, one whose
    Oregon feature has no STATE, and a feature that brings its own NAME
    and wage. *)
Definition no_county_counties : list feature :=
  [county_feature "53" "033"; county_feature "41" "051";
   Feature VNone {[ "STATE" := VStr "53" ]}; county_feature "53" "073"].

Definition no_state_counties : list feature :=
  [county_feature "53" "033"; Feature VNone {[ "COUNTY" := VStr "051" ]}].

Definition mislabelled_feature : feature :=
  Feature VNone
    {[ "STATE" := VStr "53"; "COUNTY" := VStr "001"; "NAME" := VStr "King";
       "min_wage_numeric" := VFloat 30.09 ]}.

(** A file system that already holds a map and another file. *)
Definition used : world :=
  {| console := [MapSaved "earlier"];
     files := {[ output_name := map_document []; "notes.txt" := map_document [] ]} |}.

(** * Properties *)

(** ** Results, lists and floats *)

Lemma mapM_Ok {A B} (f : A → result B) (l : list A) (k : list B) :
  mapM f l = Ok k ↔ Forall2 (λ x y, f x = Ok y) l k.
Proof.
  split.
  - revert k. induction l as [|x l IH]; intros k; simpl.
    + intros [= <-]. constructor.
    + destruct (f x) as [y|] eqn:Hx; simpl; [|discriminate].
      destruct (mapM f l) as [k'|]; simpl; [|discriminate].
      intros [= <-]. constructor; auto.
  - induction 1 as [|x y l k Hx _ IH]; simpl; [done|].
    rewrite Hx; simpl. by rewrite IH.
Qed.

Lemma mapM_fmap_Ok {A B} (f : A → result B) (g : A → B) (l : list A) :
  (∀ x, x ∈ l → f x = Ok (g x)) → mapM f l = Ok (g <$> l).
Proof.
  intros Hf. apply mapM_Ok. induction l as [|x l IH]; simpl; constructor.
  - apply Hf. by left.
  - apply IH. intros y Hy. apply Hf. by right.
Qed.

Lemma existsb_impl {A} (P Q : A → bool) (l : list A) :
  (∀ x, P x = true → Q x = true) → existsb P l = true → existsb Q l = true.
Proof.
  intros HPQ. rewrite !existsb_exists. intros (x & Hx & HP). eauto.
Qed.

Lemma existsb_ext {A} (P Q : A → bool) (l : list A) :
  (∀ x, P x = Q x) → existsb P l = existsb Q l.
Proof. intros HPQ. induction l as [|x l IH]; simpl; [done|]. by rewrite HPQ, IH. Qed.

Lemma existsb_fmap {A B} (P : B → bool) (g : A → B) (l : list A) :
  existsb P (g <$> l) = existsb (λ x, P (g x)) l.
Proof. induction l as [|x l IH]; csimpl; [done|]. by rewrite IH. Qed.

Lemma zip_with_fmap_both {A B C D} (f : A → B → C) (g : D → A) (h : D → B)
    (l : list D) :
  zip_with f (g <$> l) (h <$> l) = (λ x, f (g x) (h x)) <$> l.
Proof. induction l as [|x l IH]; csimpl; [done|]. by rewrite IH. Qed.

Lemma length_filter_fmap {A B} (P : B → Prop) (Q : A → Prop)
    `{!∀ y, Decision (P y), !∀ x, Decision (Q x)} (g : A → B) (l : list A) :
  (∀ x, P (g x) ↔ Q x) →
  length (filter P (g <$> l)) = length (filter Q l).
Proof.
  intros HPQ. induction l as [|x l IH]; csimpl; [done|].
  destruct (decide (Q x)) as [HQ|HQ].
  - rewrite !filter_cons_True by (done || by apply HPQ). simpl. by rewrite IH.
  - rewrite !filter_cons_False by (done || by rewrite HPQ). done.
Qed.

Lemma length_filter_split {A} (P Q : A → Prop)
    `{!∀ x, Decision (P x), !∀ x, Decision (Q x)} (l : list A) :
  (∀ x, P x → Q x → False) →
  length l
  = (length (filter P l) + length (filter Q l)
     + length (filter (λ x, ¬ P x ∧ ¬ Q x) l))%nat.
Proof.
  intros Hdisj. induction l as [|x l IH]; [done|].
  destruct (decide (P x)) as [HP|HP]; destruct (decide (Q x)) as [HQ|HQ].
  - destruct (Hdisj x HP HQ).
  - rewrite (filter_cons_True P), (filter_cons_False Q),
      (filter_cons_False (λ x, ¬ P x ∧ ¬ Q x)) by tauto. simpl. lia.
  - rewrite (filter_cons_False P), (filter_cons_True Q),
      (filter_cons_False (λ x, ¬ P x ∧ ¬ Q x)) by tauto. simpl. lia.
  - rewrite (filter_cons_False P), (filter_cons_False Q),
      (filter_cons_True (λ x, ¬ P x ∧ ¬ Q x)) by tauto. simpl. lia.
Qed.

Lemma py_eq_str_true (v : pyval) (s : string) :
  py_eq_str v s = true ↔ v = VStr s.
Proof.
  destruct v; simpl; try (split; [discriminate|congruence]).
  rewrite String.eqb_eq. split; congruence.
Qed.

(** Equality with a finite float is equality of the representations. *)
Lemma SFeqb_finite (x : spec_float) (s : bool) (m : positive) (e : Z) :
  SFeqb x (S754_finite s m e) = true → x = S754_finite s m e.
Proof.
  unfold SFeqb, SFcompare.
  destruct x as [s'| s' | | s' m' e']; try (destruct s; discriminate);
    try (destruct s'; discriminate).
  destruct s', s; try discriminate;
    destruct (Z.compare_spec e' e) as [->| |]; try discriminate;
    change (Pos.compare_cont Eq m' m) with (Pos.compare m' m);
    destruct (Pos.compare_spec m' m) as [->| |]; try discriminate; done.
Qed.

Lemma float_eqb_finite (x c : float) (s : bool) (m : positive) (e : Z) :
  Prim2SF c = S754_finite s m e → (x =? c)%float = true → x = c.
Proof.
  intros Hc. rewrite FloatAxioms.eqb_spec, Hc. intros Hx%SFeqb_finite.
  apply Prim2SF_inj. congruence.
Qed.

(** Only the float 30.09 is [==] to 30.09, and likewise for 26.54. *)
Lemma py_eq_float_king (v : pyval) :
  py_eq_float v 30.09 = true → v = VFloat 30.09.
Proof.
  destruct v as [|b|n|x| | |]; simpl; try discriminate.
  intros ->%(float_eqb_finite _ _ false 8469582049223639 (-48)); done.
Qed.

Lemma py_eq_float_whatcom (v : pyval) :
  py_eq_float v 26.54 = true → v = VFloat 26.54.
Proof.
  destruct v as [|b|n|x| | |]; simpl; try discriminate.
  intros ->%(float_eqb_finite _ _ false 7470345881900810 (-48)); done.
Qed.

Lemma rate_of_inj (t t' : tier) : rate_of t = rate_of t' → t = t'.
Proof.
  intros H. apply (f_equal (λ x, PrimFloat.eqb x (rate_of t'))) in H.
  by destruct t, t'; vm_compute in H.
Qed.

(** ** The selection (lines 25-28) *)

Lemma select_state_Ok (fs selected : list feature) :
  select_state fs = Ok selected → selected = filter (has_state "53") fs.
Proof.
  revert selected. induction fs as [|f fs IH]; intros selected; simpl.
  - by intros [= <-].
  - unfold getitem, has_state.
    destruct (properties f !! "STATE") as [state|] eqn:Hstate;
      simpl; [|discriminate].
    destruct (select_state fs) as [rest|]; simpl; [|discriminate].
    rewrite (IH rest eq_refl). intros [= <-].
    destruct (py_eq_str state "53") eqn:Heq.
    + apply py_eq_str_true in Heq as ->.
      rewrite filter_cons_True; [done|]. by unfold has_state.
    + rewrite filter_cons_False; [done|]. unfold has_state.
      rewrite Hstate. intros [= ->]. simpl in Heq. discriminate.
Qed.

Lemma select_state_total (fs : list feature) :
  Forall (λ f, is_Some (properties f !! "STATE")) fs →
  select_state fs = Ok (filter (has_state "53") fs).
Proof.
  induction 1 as [|f fs [state Hstate] _ IH]; simpl; [done|].
  unfold getitem. rewrite Hstate, IH; simpl. f_equal.
  destruct (py_eq_str state "53") eqn:Heq.
  - apply py_eq_str_true in Heq as ->. by rewrite filter_cons_True.
  - rewrite filter_cons_False; [done|]. unfold has_state.
    rewrite Hstate. intros [= ->]. simpl in Heq. discriminate.
Qed.

(** ** The enrichment (lines 49-54) *)

(** The table is looked up by evaluation only. *)
#[local] Opaque county_names.

(** A feature with str codes is enriched with the table's name for the
    concatenated code, or with the sentinel. *)
Lemma add_county_name_str (f : feature) (s c : string) :
  properties f !! "STATE" = Some (VStr s) →
  properties f !! "COUNTY" = Some (VStr c) →
  add_county_name f
  = Ok (with_names (default "Unknown" (county_names !! (s ++ c))) f).
Proof.
  intros Hs Hc. unfold add_county_name, getitem. by rewrite Hc, Hs.
Qed.

(** A selected feature that is enriched had a str county code. *)
Lemma add_county_name_Ok (f r : feature) (s : string) :
  properties f !! "STATE" = Some (VStr s) →
  add_county_name f = Ok r →
  ∃ c, properties f !! "COUNTY" = Some (VStr c)
       ∧ r = with_names (default "Unknown" (county_names !! (s ++ c))) f.
Proof.
  intros Hs. unfold add_county_name, getitem. rewrite Hs.
  destruct (properties f !! "COUNTY") as [fips|]; simpl; [|discriminate].
  destruct fips as [| | | |c| |]; simpl; try discriminate.
  intros [= <-]. eauto.
Qed.

Lemma with_names_NAME n f : properties (with_names n f) !! "NAME" = Some (VStr n).
Proof. unfold with_names; simpl. by rewrite lookup_insert_ne, lookup_insert_eq. Qed.

Lemma with_names_NAMELSAD n f :
  properties (with_names n f) !! "NAMELSAD" = Some (VStr (n ++ " County")).
Proof. unfold with_names; simpl. by rewrite lookup_insert_eq. Qed.

Lemma with_names_other n f k :
  k ≠ "NAME" → k ≠ "NAMELSAD" →
  properties (with_names n f) !! k = properties f !! k.
Proof. intros. unfold with_names; simpl. by rewrite !lookup_insert_ne. Qed.

Lemma add_county_name_loaded_from (f r : feature) :
  has_state "53" f → add_county_name f = Ok r →
  loaded_from f r
  ∧ ∃ n, properties r !! "NAME" = Some (VStr n)
         ∧ properties r !! "NAMELSAD" = Some (VStr (n ++ " County")).
Proof.
  intros Hs (c & _ & ->)%(add_county_name_Ok _ _ "53"); [|done].
  split; [split; [done|apply with_names_other]|].
  eauto using with_names_NAME, with_names_NAMELSAD.
Qed.

(** ** The loader as a whole *)

Lemma get_wa_counties_bad_status status json w :
  status ≠ 200 →
  get_wa_counties (Response status json) w
  = (logged [ApiRequestFailed status; ErrorGettingCountyData fetch_failed] w,
     Err fetch_failed).
Proof.
  intros Hne. unfold get_wa_counties, try_except; simpl.
  unfold mbind, M_bind, lift; simpl.
  destruct (status =? 200) eqn:Heq; [apply Z.eqb_eq in Heq; done|].
  unfold logged; simpl. by rewrite <- app_assoc.
Qed.

Lemma get_wa_counties_Err net w w' e :
  get_wa_counties net w = (w', Err e) →
  ∃ before, w' = logged (before ++ [ErrorGettingCountyData e]) w.
Proof.
  unfold get_wa_counties, try_except, mbind, M_bind, lift, print, raise.
  destruct net as [e0|status json]; simpl.
  - intros [= <- <-]. by exists [].
  - destruct (status =? 200); simpl.
    + destruct json as [all|e0]; simpl; [|intros [= <- <-]; by exists []].
      destruct (select_state all) as [sel|e0]; simpl;
        [|intros [= <- <-]; by exists []].
      destruct (mapM add_county_name sel) as [named|e0]; simpl;
        [discriminate|intros [= <- <-]; by exists []].
    + intros [= <- <-]. exists [ApiRequestFailed status].
      unfold logged; simpl. by rewrite <- app_assoc.
Qed.

Lemma get_wa_counties_Ok net w w' gdf :
  get_wa_counties net w = (w', Ok gdf) →
  w' = w ∧ crs gdf = "EPSG:4326" ∧
  ∃ all_counties,
    net = Response 200 (Ok all_counties)
    ∧ mapM add_county_name (filter (has_state "53") all_counties)
      = Ok (rows gdf).
Proof.
  unfold get_wa_counties, try_except, mbind, M_bind, lift, print, raise.
  destruct net as [e0|status json]; simpl; [discriminate|].
  destruct (status =? 200) eqn:Hstatus; simpl; [|discriminate].
  apply Z.eqb_eq in Hstatus as ->.
  destruct json as [all|e0]; simpl; [|discriminate].
  destruct (select_state all) as [sel|e0] eqn:Hsel; simpl; [|discriminate].
  apply select_state_Ok in Hsel as ->.
  destruct (mapM add_county_name _) as [named|e0] eqn:Hnamed; simpl;
    [|discriminate].
  intros [= <- <-]. eauto.
Qed.

Lemma loaded_rows net w w' gdf :
  get_wa_counties net w = (w', Ok gdf) →
  ∃ all_counties,
    net = Response 200 (Ok all_counties)
    ∧ Forall2 (λ f r, has_state "53" f ∧ add_county_name f = Ok r)
        (filter (has_state "53") all_counties) (rows gdf).
Proof.
  intros (_ & _ & all & -> & Hrows%mapM_Ok)%get_wa_counties_Ok.
  exists all. split; [done|].
  assert (Forall (has_state "53") (filter (has_state "53") all)) as Hsel.
  { apply Forall_forall. by intros f [? _]%list_elem_of_filter. }
  revert Hsel. induction Hrows; intros Hsel; [constructor|].
  inversion_clear Hsel. constructor; auto.
Qed.

(** C6.  When the loader returns a frame, the fetch was a 200 response with
    a document, and the rows of the frame are, one for one and in the
    order of the document, its features whose STATE property is the str
    "53": the selection is a subsequence of the document holding exactly
    the features with that state code, and the row at each position has
    the state code and the county code of the selected feature at that
    position. *)
Theorem loaded_are_the_selected_in_order net w w' gdf :
  get_wa_counties net w = (w', Ok gdf) →
  ∃ all_counties,
    net = Response 200 (Ok all_counties)
    ∧ (∀ f, f ∈ filter (has_state "53") all_counties
            ↔ f ∈ all_counties ∧ properties f !! "STATE" = Some (VStr "53"))
    ∧ filter (has_state "53") all_counties `sublist_of` all_counties
    ∧ Forall2 same_codes (filter (has_state "53") all_counties) (rows gdf).
Proof.
  intros (all & -> & Hrows)%loaded_rows. exists all.
  split; [done|]. split; [|split].
  - intros f. rewrite list_elem_of_filter. unfold has_state. tauto.
  - apply sublist_filter.
  - eapply Forall2_impl; [exact Hrows|].
    intros f r [Hs Hr].
    destruct (add_county_name_Ok f r "53" Hs Hr) as (c & Hc & ->).
    exists c. by rewrite !with_names_other.
Qed.

Lemma loaded_are_the_selected_in_order_witness :
  get_wa_counties (Response 200 (Ok sample_counties)) start
  = (start, Ok sample_frame)
  ∧ Forall2 same_codes
      (filter (has_state "53") sample_counties) (rows sample_frame).
Proof.
  assert (get_wa_counties (Response 200 (Ok sample_counties)) start
          = (start, Ok sample_frame)) as Hload by (vm_compute; reflexivity).
  split; [exact Hload|].
  destruct (loaded_are_the_selected_in_order _ _ _ _ Hload)
    as (all & Hall & _ & _ & Hrows).
  injection Hall as <-. exact Hrows.
Defined.

(** C7.  Every row of a frame the loader returns has a str NAME, and its
    NAMELSAD is that name with " County" appended. *)
Theorem long_name_is_short_name_County net w w' gdf i r :
  get_wa_counties net w = (w', Ok gdf) →
  rows gdf !! i = Some r →
  ∃ n, properties r !! "NAME" = Some (VStr n)
       ∧ properties r !! "NAMELSAD" = Some (VStr (n ++ " County")).
Proof.
  intros (all & _ & Hrows)%loaded_rows Hi.
  destruct (Forall2_lookup_r _ _ _ _ _ Hrows Hi) as (f & _ & Hs & Hr).
  by destruct (add_county_name_loaded_from f r) as [_ ?].
Qed.

Lemma long_name_is_short_name_County_witness :
  rows sample_frame !! 0%nat
  = Some (with_names "King" (county_feature "53" "033"))
  ∧ ∃ n, properties (with_names "King" (county_feature "53" "033")) !! "NAME"
         = Some (VStr n)
         ∧ properties (with_names "King" (county_feature "53" "033"))
           !! "NAMELSAD" = Some (VStr (n ++ " County")).
Proof.
  assert (rows sample_frame !! 0%nat
          = Some (with_names "King" (county_feature "53" "033"))) as Hrow
    by (vm_compute; reflexivity).
  split; [exact Hrow|].
  apply (long_name_is_short_name_County
           (Response 200 (Ok sample_counties)) start start sample_frame 0);
    [vm_compute; reflexivity|exact Hrow].
Defined.

(** C4, as the code has it.  For a feature whose STATE and COUNTY are str
    and whose concatenated code is absent from the name table, the
    enrichment does not fail; it writes the sentinel "Unknown" as NAME and
    the sentinel with the suffix, "Unknown County", as NAMELSAD. *)
Theorem unmapped_code_names (f : feature) (s c : string) :
  properties f !! "STATE" = Some (VStr s) →
  properties f !! "COUNTY" = Some (VStr c) →
  county_names !! (s ++ c) = None →
  ∃ r, add_county_name f = Ok r
       ∧ properties r !! "NAME" = Some (VStr "Unknown")
       ∧ properties r !! "NAMELSAD" = Some (VStr "Unknown County").
Proof.
  intros Hs Hc Hnone. rewrite (add_county_name_str f s c Hs Hc), Hnone.
  eexists. split; [done|]. simpl.
  split; [apply with_names_NAME|apply with_names_NAMELSAD].
Qed.

Lemma unmapped_code_names_witness :
  ∃ r, add_county_name unmapped_feature = Ok r
       ∧ properties r !! "NAME" = Some (VStr "Unknown")
       ∧ properties r !! "NAMELSAD" = Some (VStr "Unknown County").
Proof.
  apply (unmapped_code_names unmapped_feature "53" "999");
    vm_compute; reflexivity.
Defined.

(** C4 as stated fails: for the code 53999, absent from the table, the
    NAMELSAD written is "Unknown County", not the sentinel "Unknown". *)
Lemma unmapped_long_name_is_not_the_sentinel :
  county_names !! "53999" = None
  ∧ ∃ r, add_county_name unmapped_feature = Ok r
         ∧ properties r !! "NAMELSAD" = Some (VStr "Unknown County")
         ∧ properties r !! "NAMELSAD" ≠ Some (VStr "Unknown").
Proof.
  split; [vm_compute; reflexivity|].
  eexists. split; [vm_compute; reflexivity|].
  split; [vm_compute; reflexivity|]. vm_compute. discriminate.
Qed.

(** C3, as the code has it.  On a status other than 200 the loader prints
    the status code, raises the fixed [Exception] of line 61, prints that
    exception and re-raises it.  An exception raised by the request or by
    the decoding of a 200 response is printed and re-raised as it is.
    Whatever the loader raises, it is the last line it printed, and no
    file is touched. *)
Theorem loader_failures_are_logged_and_reraised :
  (∀ status json w, status ≠ 200 →
     get_wa_counties (Response status json) w
     = (logged [ApiRequestFailed status; ErrorGettingCountyData fetch_failed] w,
        Err fetch_failed))
  ∧ (∀ e w,
       get_wa_counties (RequestRaises e) w
       = (logged [ErrorGettingCountyData e] w, Err e))
  ∧ (∀ e w,
       get_wa_counties (Response 200 (Err e)) w
       = (logged [ErrorGettingCountyData e] w, Err e))
  ∧ (∀ net w w' e,
       get_wa_counties net w = (w', Err e) →
       files w' = files w
       ∧ ∃ before,
           console w'
           = (console w ++ before ++ [ErrorGettingCountyData e])%list).
Proof.
  split; [|split; [|split]].
  - apply get_wa_counties_bad_status.
  - done.
  - done.
  - intros net w w' e (before & ->)%get_wa_counties_Err. simpl. eauto.
Qed.

(** C3 as stated fails: the exception raised on a bad status is the same
    for 404 and for 500, so no reading of it gives back the status code. *)
Lemma raised_exception_does_not_carry_the_status :
  ¬ ∃ status_of : exn → Z, ∀ status json w,
      status ≠ 200 →
      ∃ e, (get_wa_counties (Response status json) w).2 = Err e
           ∧ status_of e = status.
Proof.
  intros [status_of H].
  destruct (H 404 (Ok []) (World [] ∅)) as (e1 & He1 & H1); [done|].
  destruct (H 500 (Ok []) (World [] ∅)) as (e2 & He2 & H2); [done|].
  rewrite get_wa_counties_bad_status in He1, He2 by done.
  simpl in *. congruence.
Qed.

(** A failing request, and a document with a feature that has no COUNTY:
    what is raised is what was printed last. *)
Example loader_reraises_the_cause :
  get_wa_counties (RequestRaises (Raised "ConnectionError" "refused")) start
  = (logged [ErrorGettingCountyData (Raised "ConnectionError" "refused")] start,
     Err (Raised "ConnectionError" "refused"))
  ∧ get_wa_counties
      (Response 200 (Ok [Feature VNone {[ "STATE" := VStr "53" ]}])) start
    = (logged [ErrorGettingCountyData (KeyError "COUNTY")] start,
       Err (KeyError "COUNTY")).
Proof. split; vm_compute; reflexivity. Qed.

(** ** The style function (lines 85-93) *)

Lemma style_function_float (f : feature) (x : float) :
  properties f !! "min_wage_numeric" = Some (VFloat x) →
  style_function f
  = Ok (if (x =? 30.09)%float then rich_gold
        else if (x =? 26.54)%float then medium_gold
        else light_gold).
Proof.
  intros Hx. unfold style_function, getitem. rewrite Hx; simpl.
  by repeat destruct (_ =? _)%float.
Qed.

(** C1.  The style of a feature depends on its min_wage_numeric property
    alone; on a float rate it is the rich gold exactly when the rate [==]
    30.09, the medium gold exactly when it [==] 26.54, and the light gold
    otherwise; and any value other than the floats 30.09 and 26.54 gets
    the light gold, whose fillColor is '#ffeeba'. *)
Theorem style_by_exact_rate :
  (∀ f g : feature,
     properties f !! "min_wage_numeric" = properties g !! "min_wage_numeric" →
     style_function f = style_function g)
  ∧ (∀ (f : feature) (x : float),
       properties f !! "min_wage_numeric" = Some (VFloat x) →
       style_function f
       = Ok (if (x =? 30.09)%float then rich_gold
             else if (x =? 26.54)%float then medium_gold
             else light_gold))
  ∧ (∀ (f : feature) (v : pyval),
       properties f !! "min_wage_numeric" = Some v →
       v ≠ VFloat 30.09 → v ≠ VFloat 26.54 →
       style_function f = Ok light_gold)
  ∧ fillColor light_gold = "#ffeeba".
Proof.
  split; [|split; [|split]]; [| |  |done].
  - intros f g Heq. unfold style_function, getitem. by rewrite Heq.
  - apply style_function_float.
  - intros f v Hv Hking Hwhatcom. unfold style_function, getitem.
    rewrite Hv; simpl.
    destruct (py_eq_float v 30.09) eqn:H1;
      [by apply py_eq_float_king in H1|].
    destruct (py_eq_float v 26.54) eqn:H2;
      [by apply py_eq_float_whatcom in H2|].
    done.
Qed.

(** Rates beside and between the two constants, their neighbouring
    doubles included, fall into the default bucket. *)
Example style_is_not_by_range :
  Forall (λ x, style_function
                 (Feature VNone {[ "min_wage_numeric" := VFloat x ]})
               = Ok light_gold)
    [30.08; 30.1; next_up 30.09; next_down 30.09; 28; 26.55; 26.53; 100;
     23.7; 0; nan]%float
  ∧ style_function (Feature VNone {[ "min_wage_numeric" := VInt 30 ]})
    = Ok light_gold
  ∧ style_function (Feature VNone {[ "min_wage_numeric" := VStr "30.09" ]})
    = Ok light_gold
  ∧ style_function (Feature VNone {[ "min_wage_numeric" := VFloat 30.09 ]})
    = Ok rich_gold
  ∧ style_function (Feature VNone {[ "min_wage_numeric" := VFloat 26.54 ]})
    = Ok medium_gold.
Proof.
  split; [|repeat split; vm_compute; reflexivity].
  repeat constructor; vm_compute; reflexivity.
Qed.

(** ** The wage join (lines 73-79), row by row *)

Lemma named_true n r : named n r = true ↔ properties r !! "NAME" = Some (VStr n).
Proof.
  unfold named. destruct (properties r !! "NAME") as [v|]; simpl.
  - rewrite py_eq_str_true. split; congruence.
  - split; discriminate.
Qed.

Lemma named_has_name n r : named n r = true ↔ has_name n r.
Proof. apply named_true. Qed.

Lemma named_false n r : named n r = false ↔ ¬ has_name n r.
Proof. rewrite <- named_has_name. by destruct (named n r). Qed.

Lemma column_fmap c (g : feature → feature) x (l : list feature) :
  existsb (λ r, bool_decide (is_Some (properties (g r) !! c))) l = true →
  column c {| crs := x; rows := g <$> l |}
  = Ok ((λ r, properties (g r) !! c) <$> l).
Proof.
  intros Hex. unfold column, has_column; simpl.
  by rewrite existsb_fmap, Hex, <- list_fmap_compose.
Qed.

Lemma has_column_false_fmap c (g : feature → feature) x (l : list feature) :
  (∀ r, properties (g r) !! c = properties r !! c) →
  has_column c {| crs := x; rows := l |} = false →
  column c {| crs := x; rows := g <$> l |} = Err (KeyError c).
Proof.
  intros Hg Hc. unfold column, has_column in *; cbn [rows] in *.
  rewrite existsb_fmap.
  erewrite (existsb_ext _ (λ r, bool_decide (is_Some (properties r !! c)))).
  - by rewrite Hc.
  - intros r. by rewrite Hg.
Qed.

Lemma loc_set_fmap (m : feature → bool) (g : feature → feature) c v x
    (l : list feature) :
  loc_set (m <$> l) c v {| crs := x; rows := g <$> l |}
  = {| crs := x;
       rows := (λ r, if m r then set_property c v (g r) else g r) <$> l |}.
Proof. unfold loc_set; cbn [crs rows]. by rewrite zip_with_fmap_both. Qed.

Lemma set_column_series_fmap (t : feature → pyval) (g : feature → feature)
    c x (l : list feature) :
  set_column_series c (t <$> l) {| crs := x; rows := g <$> l |}
  = {| crs := x; rows := (λ r, set_property c (t r) (g r)) <$> l |}.
Proof.
  unfold set_column_series; cbn [crs rows]. by rewrite zip_with_fmap_both.
Qed.

Lemma loc_iadd_fmap (m : feature → bool) (g k : feature → feature) c s x
    (l : list feature) :
  (∀ r, m r = true →
        ∃ cell v, properties (g r) !! c = Some cell ∧ py_add cell s = Ok v
                  ∧ k r = set_property c v (g r)) →
  (∀ r, m r = false → k r = g r) →
  loc_iadd (m <$> l) c s {| crs := x; rows := g <$> l |}
  = Ok {| crs := x; rows := k <$> l |}.
Proof.
  intros Htrue Hfalse. unfold loc_iadd; cbn [crs rows].
  rewrite (zip_with_fmap_both pair m g l).
  rewrite (mapM_fmap_Ok _ (λ p : bool * feature,
             if p.1 then
               match properties p.2 !! c with
               | Some cell =>
                   match py_add cell s with
                   | Ok v => set_property c v p.2
                   | Err _ => p.2
                   end
               | None => p.2
               end
             else p.2)).
  - cbn [mbind result_bind]. rewrite <- list_fmap_compose. do 2 f_equal.
    apply list_fmap_ext. intros _ r _. unfold compose; cbn [fst snd].
    destruct (m r) eqn:Hm.
    + destruct (Htrue r Hm) as (cell & v & -> & -> & ->). done.
    + by rewrite Hfalse.
  - intros [b r] [r0 [[= -> ->] Hr0]]%list_elem_of_fmap. cbn [fst snd].
    destruct (m r0) eqn:Hm; [|done].
    destruct (Htrue r0 Hm) as (cell & v & Hcell & Hadd & _).
    unfold getitem. rewrite Hcell. cbn [mbind result_bind]. by rewrite Hadd.
Qed.

Lemma tier_of_king (r : feature) : tier_of r = KingOverride ↔ has_name "King" r.
Proof.
  unfold tier_of. destruct (named "Whatcom" r) eqn:Hw.
  - apply named_has_name in Hw. unfold has_name in *.
    split; [done|]. rewrite Hw. discriminate.
  - rewrite <- named_has_name. by destruct (named "King" r).
Qed.

Lemma tier_of_whatcom (r : feature) :
  tier_of r = WhatcomOverride ↔ has_name "Whatcom" r.
Proof.
  unfold tier_of. rewrite <- named_has_name.
  by destruct (named "Whatcom" r), (named "King" r).
Qed.

Lemma tier_of_default (r : feature) :
  tier_of r = DefaultRate ↔ ¬ has_name "King" r ∧ ¬ has_name "Whatcom" r.
Proof.
  unfold tier_of. rewrite <- !named_false.
  destruct (named "Whatcom" r), (named "King" r); split; (done || tauto || auto).
  all: intros []; done.
Qed.

Ltac unfold_joined_row :=
  unfold compose, joined_row, tier_of, named, text_of, wage_text,
    set_property.

Section wage_join_properties.

Variable float_str : float → string.

#[local] Abbreviation wage_text := (wage_text float_str).
#[local] Abbreviation text_of := (text_of float_str).
#[local] Abbreviation joined_row := (joined_row float_str).
#[local] Abbreviation wage_join := (wage_join float_str).

(** With a NAME column, the column operations of lines 73-79 come to
    [joined_row] on every row. *)
Lemma wage_join_rows (df : GeoDataFrame) :
  has_column "NAME" df = true →
  wage_join df
  = Ok {| crs := crs df; rows := joined_row <$> rows df |}.
Proof.
  destruct df as [x l]. unfold has_column; cbn [rows crs]. intros Hname.
  unfold wage_join, set_column, series_eq_str, astype_str; cbn [rows crs].
  rewrite column_fmap.
  2:{ eapply existsb_impl, Hname. intros r.
      unfold set_property; cbn [properties]. by rewrite lookup_insert_ne. }
  cbn [mbind result_bind].
  rewrite <- list_fmap_compose, loc_set_fmap.
  rewrite column_fmap.
  2:{ eapply existsb_impl, Hname. intros r.
      unfold compose, set_property; cbn [properties].
      destruct (from_option _ _ _); cbn [properties];
        by rewrite ?lookup_insert_ne. }
  cbn [mbind result_bind].
  rewrite <- list_fmap_compose, loc_set_fmap.
  rewrite column_fmap.
  2:{ eapply existsb_impl, Hname. intros r _.
      apply bool_decide_eq_true.
      unfold compose, set_property; cbn [properties].
      repeat (destruct (from_option _ _ _); cbn [properties]);
        rewrite ?lookup_insert_eq; eauto. }
  cbn [mbind result_bind].
  rewrite <- !list_fmap_compose, set_column_series_fmap.
  rewrite column_fmap.
  2:{ eapply existsb_impl, Hname. intros r.
      unfold compose, set_property; cbn [properties].
      repeat (destruct (from_option _ _ _); cbn [properties]);
        by rewrite ?lookup_insert_ne. }
  cbn [mbind result_bind].
  rewrite <- list_fmap_compose.
  apply loc_iadd_fmap; intros r; unfold_joined_row;
    destruct (from_option (λ v, py_eq_str v "King") false
                (properties r !! "NAME")) eqn:Hk;
    destruct (from_option (λ v, py_eq_str v "Whatcom") false
                (properties r !! "NAME")) eqn:Hw;
    repeat (progress cbn [properties geometry to_float64 rate_of]
            || rewrite lookup_insert_eq
            || (rewrite lookup_insert_ne by done)
            || rewrite Hk || rewrite Hw);
    try discriminate; intros _; rewrite ?insert_insert_eq; try done.
  all: eexists _, _; split; [done|]; split; [done|].
  all: by rewrite insert_insert_eq.
Qed.

(** The join either fails on the NAME column or gives every row its tier. *)
Lemma wage_join_Ok (df joined : GeoDataFrame) :
  wage_join df = Ok joined →
  joined = {| crs := crs df; rows := joined_row <$> rows df |}.
Proof.
  destruct (has_column "NAME" df) eqn:Hname.
  - rewrite wage_join_rows by done. by intros [= <-].
  - destruct df as [x l]. unfold wage_join, set_column; cbn [rows crs].
    rewrite has_column_false_fmap; [discriminate| |done].
    intros r. unfold set_property; cbn [properties].
    by rewrite lookup_insert_ne.
Qed.

Lemma filter_has_name_has_column (n : string) (df : GeoDataFrame) :
  length (filter (has_name n) (rows df)) ≠ 0%nat →
  has_column "NAME" df = true.
Proof.
  intros Hn. unfold has_column. apply existsb_exists.
  destruct (filter (has_name n) (rows df)) as [|r l] eqn:Hf; [done|].
  assert (r ∈ filter (has_name n) (rows df)) as [Hr Hin]%list_elem_of_filter
    by (rewrite Hf; left).
  exists r. split; [by apply list_elem_of_In|].
  apply bool_decide_eq_true. unfold has_name in Hr. by rewrite Hr.
Qed.

Lemma joined_row_other (r : feature) (k : string) :
  k ≠ "min_wage_numeric" → k ≠ "min_wage_cad" →
  properties (joined_row r) !! k = properties r !! k.
Proof. intros. unfold joined_row; simpl. by rewrite !lookup_insert_ne. Qed.

Lemma joined_row_has_name (n : string) (r : feature) :
  has_name n (joined_row r) ↔ has_name n r.
Proof. unfold has_name. by rewrite joined_row_other. Qed.

Lemma joined_row_carries (r : feature) :
  carries (joined_row r) (rate_of (tier_of r)) (text_of (tier_of r)).
Proof.
  unfold carries, joined_row, tier_of; simpl.
  rewrite lookup_insert_ne, !lookup_insert_eq by done.
  by destruct (named "Whatcom" r), (named "King" r).
Qed.

Lemma carries_tier (r : feature) (t : tier) (text : string) :
  carries (joined_row r) (rate_of t) text → tier_of r = t.
Proof.
  intros [Hrate _]. destruct (joined_row_carries r) as [Hrate' _].
  rewrite Hrate in Hrate'. injection Hrate' as Heq. symmetry.
  by apply rate_of_inj.
Qed.

Lemma tier_carries (r : feature) (t : tier) :
  tier_of r = t → carries (joined_row r) (rate_of t) (text_of t).
Proof. intros <-. apply joined_row_carries. Qed.

Lemma joined_row_tiers (r : feature) :
  (has_name "King" (joined_row r)
   ↔ carries (joined_row r) 30.09 (wage_text 30.09))
  ∧ (has_name "Whatcom" (joined_row r)
     ↔ carries (joined_row r) 26.54 (wage_text 26.54 ++ " starting May 1st"))
  ∧ (¬ has_name "King" (joined_row r) ∧ ¬ has_name "Whatcom" (joined_row r)
     ↔ carries (joined_row r) 23.70 (wage_text 23.70)).
Proof.
  rewrite !joined_row_has_name.
  rewrite <- tier_of_default, <- tier_of_king, <- tier_of_whatcom.
  split; [|split].
  - split; [apply (tier_carries r KingOverride)
           |apply (carries_tier r KingOverride)].
  - split; [apply (tier_carries r WhatcomOverride)
           |apply (carries_tier r WhatcomOverride)].
  - split; [apply (tier_carries r DefaultRate)
           |apply (carries_tier r DefaultRate)].
Qed.

(** C2.  On a frame of 39 rows with one row named "King" and one named
    "Whatcom", the join succeeds and keeps the 39 rows, one named King,
    one named Whatcom and 37 named neither; a row is named King exactly
    when it carries 30.09 and the display string of 30.09 with nothing
    appended, it is named Whatcom exactly when it carries 26.54 and the
    display string of 26.54 followed by " starting May 1st", and it has
    neither name exactly when it carries 23.70 and the display string of
    23.70. *)
Theorem king_whatcom_scenario (df : GeoDataFrame) :
  length (rows df) = 39%nat →
  length (filter (has_name "King") (rows df)) = 1%nat →
  length (filter (has_name "Whatcom") (rows df)) = 1%nat →
  ∃ joined,
    wage_join df = Ok joined
    ∧ length (rows joined) = 39%nat
    ∧ length (filter (has_name "King") (rows joined)) = 1%nat
    ∧ length (filter (has_name "Whatcom") (rows joined)) = 1%nat
    ∧ length (filter (λ j, ¬ has_name "King" j ∧ ¬ has_name "Whatcom" j)
                (rows joined)) = 37%nat
    ∧ ∀ i j, rows joined !! i = Some j →
        (has_name "King" j ↔ carries j 30.09 (wage_text 30.09))
        ∧ (has_name "Whatcom" j
           ↔ carries j 26.54 (wage_text 26.54 ++ " starting May 1st"))
        ∧ (¬ has_name "King" j ∧ ¬ has_name "Whatcom" j
           ↔ carries j 23.70 (wage_text 23.70)).
Proof.
  intros Hlen Hking Hwhatcom.
  eexists. split.
  { apply wage_join_rows, (filter_has_name_has_column "King"). lia. }
  cbn [rows].
  assert (length (filter (has_name "King") (joined_row <$> rows df)) = 1%nat)
    as Hking'.
  { rewrite <- Hking. apply length_filter_fmap, joined_row_has_name. }
  assert (length (filter (has_name "Whatcom") (joined_row <$> rows df))
          = 1%nat) as Hwhatcom'.
  { rewrite <- Hwhatcom. apply length_filter_fmap, joined_row_has_name. }
  assert (length (joined_row <$> rows df) = 39%nat) as Hlen'
    by by rewrite length_fmap.
  split; [done|]. split; [done|]. split; [done|]. split.
  - pose proof (length_filter_split (has_name "King") (has_name "Whatcom")
                  (joined_row <$> rows df)) as Hsplit.
    rewrite Hlen', Hking', Hwhatcom' in Hsplit.
    assert (∀ x, has_name "King" x → has_name "Whatcom" x → False) as Hdisj
      by (unfold has_name; congruence).
    specialize (Hsplit Hdisj). lia.
  - intros i j (r & -> & _)%list_lookup_fmap_Some. apply joined_row_tiers.
Qed.

(** C8.  Every row of a joined frame carries the rate and the display
    string of one tier, and of no other tier; the display string is the
    printed rate followed by " Canadian Dollars an hour", and by the note
    for Whatcom alone; the tier is the King override exactly for the name
    "King", the Whatcom override exactly for the name "Whatcom", and the
    default for every name that is neither. *)
Theorem one_rate_and_its_text (df joined : GeoDataFrame) (i : nat) (j : feature) :
  wage_join df = Ok joined →
  rows joined !! i = Some j →
  ∃ t : tier,
    carries j (rate_of t) (text_of t)
    ∧ (∀ t', properties j !! "min_wage_numeric" = Some (VFloat (rate_of t')) →
             t' = t)
    ∧ (t = KingOverride ↔ has_name "King" j)
    ∧ (t = WhatcomOverride ↔ has_name "Whatcom" j)
    ∧ (¬ has_name "King" j → ¬ has_name "Whatcom" j → t = DefaultRate).
Proof.
  intros -> %wage_join_Ok (r & -> & _)%list_lookup_fmap_Some.
  exists (tier_of r). rewrite !joined_row_has_name.
  split; [apply joined_row_carries|]. split; [|split; [|split]].
  - intros t' Hrate. symmetry.
    eapply (carries_tier r t' (text_of (tier_of r))).
    split; [done|apply joined_row_carries].
  - apply tier_of_king.
  - apply tier_of_whatcom.
  - intros. by apply tier_of_default.
Qed.

(** C10.  In the frame loaded and then joined, a row whose STATE and
    COUNTY concatenate to a code absent from the name table is named
    "Unknown" and carries the default rate 23.70 with the default display
    string. *)
Theorem unmapped_code_gets_default net w w' gdf joined i r s c :
  get_wa_counties net w = (w', Ok gdf) →
  wage_join gdf = Ok joined →
  rows joined !! i = Some r →
  properties r !! "STATE" = Some (VStr s) →
  properties r !! "COUNTY" = Some (VStr c) →
  county_names !! (s ++ c) = None →
  has_name "Unknown" r ∧ carries r 23.70 (wage_text 23.70).
Proof.
  intros (all & _ & Hrows)%loaded_rows ->%wage_join_Ok.
  intros (r1 & -> & Hi)%list_lookup_fmap_Some.
  destruct (Forall2_lookup_r _ _ _ _ _ Hrows Hi) as (f & _ & Hs & Hr).
  apply (add_county_name_Ok _ _ "53") in Hr as (c1 & Hc1 & ->); [|done].
  rewrite !joined_row_other, !with_names_other by done.
  rewrite Hs, Hc1. intros [= <-] [= <-] Hnone. rewrite Hnone. simpl.
  assert (has_name "Unknown" (with_names "Unknown" f)) as Hname
    by apply with_names_NAME.
  split; [by apply joined_row_has_name|].
  apply (tier_carries _ DefaultRate), tier_of_default.
  unfold has_name in *. rewrite Hname. split; discriminate.
Qed.

(** The renderer has no handler: what the loader raises leaves
    [create_wa_minimum_wage_map] as it is, with the world as the loader
    left it. *)
Lemma create_propagates net w w' e :
  get_wa_counties net w = (w', Err e) →
  create_wa_minimum_wage_map float_str net w = (w', Err e).
Proof.
  intros Hload. unfold create_wa_minimum_wage_map, mbind, M_bind.
  by rewrite Hload.
Qed.

(** C5.  On a status other than 200 the whole run ends as the loader
    does, with the same world and the same exception, whatever the body
    of the response: two lines are printed and the files are those from
    before the run. *)
Theorem bad_status_aborts_the_run status json w :
  status ≠ 200 →
  create_wa_minimum_wage_map float_str (Response status json) w
  = (logged [ApiRequestFailed status; ErrorGettingCountyData fetch_failed] w,
     Err fetch_failed)
  ∧ get_wa_counties (Response status json) w
    = (logged [ApiRequestFailed status; ErrorGettingCountyData fetch_failed] w,
       Err fetch_failed)
  ∧ files (logged [ApiRequestFailed status;
                   ErrorGettingCountyData fetch_failed] w) = files w.
Proof.
  intros Hstatus. split; [|split; [|done]].
  - by apply create_propagates, get_wa_counties_bad_status.
  - by apply get_wa_counties_bad_status.
Qed.

End wage_join_properties.

Lemma king_whatcom_scenario_witness :
  length (rows washington_frame) = 39%nat
  ∧ length (filter (has_name "King") (rows washington_frame)) = 1%nat
  ∧ length (filter (has_name "Whatcom") (rows washington_frame)) = 1%nat
  ∧ ∃ joined,
      wage_join float_repr washington_frame = Ok joined
      ∧ length (filter (λ j, ¬ has_name "King" j ∧ ¬ has_name "Whatcom" j)
                  (rows joined)) = 37%nat.
Proof.
  assert (length (rows washington_frame) = 39%nat) as H39
    by (vm_compute; reflexivity).
  assert (length (filter (has_name "King") (rows washington_frame)) = 1%nat)
    as Hking by (vm_compute; reflexivity).
  assert (length (filter (has_name "Whatcom") (rows washington_frame)) = 1%nat)
    as Hwhatcom by (vm_compute; reflexivity).
  do 3 (split; [assumption|]).
  destruct (king_whatcom_scenario float_repr washington_frame H39 Hking Hwhatcom)
    as (joined & Hjoin & _ & _ & _ & Hothers & _).
  exists joined. split; assumption.
Defined.

Lemma one_rate_and_its_text_witness :
  wage_join float_repr sample_frame = Ok (joined sample_frame)
  ∧ rows (joined sample_frame) !! 1%nat
    = Some (joined_row float_repr
              (with_names "Whatcom" (county_feature "53" "073")))
  ∧ ∃ t : tier,
      carries (joined_row float_repr
                 (with_names "Whatcom" (county_feature "53" "073")))
        (rate_of t) (text_of float_repr t).
Proof.
  assert (wage_join float_repr sample_frame = Ok (joined sample_frame))
    as Hjoin by (vm_compute; reflexivity).
  assert (rows (joined sample_frame) !! 1%nat
          = Some (joined_row float_repr
                    (with_names "Whatcom" (county_feature "53" "073"))))
    as Hrow by (vm_compute; reflexivity).
  do 2 (split; [assumption|]).
  destruct (one_rate_and_its_text float_repr _ _ _ _ Hjoin Hrow)
    as (t & Ht & _).
  exists t. exact Ht.
Defined.

Lemma unmapped_code_gets_default_witness :
  rows (joined sample_frame) !! 3%nat
  = Some (joined_row float_repr (with_names "Unknown" unmapped_feature))
  ∧ county_names !! ("53" ++ "999") = None
  ∧ has_name "Unknown"
      (joined_row float_repr (with_names "Unknown" unmapped_feature))
  ∧ carries (joined_row float_repr (with_names "Unknown" unmapped_feature))
      23.70 (wage_text float_repr 23.70).
Proof.
  assert (rows (joined sample_frame) !! 3%nat
          = Some (joined_row float_repr
                    (with_names "Unknown" unmapped_feature)))
    as Hrow by (vm_compute; reflexivity).
  assert (county_names !! ("53" ++ "999") = None) as Hnone
    by (vm_compute; reflexivity).
  do 2 (split; [assumption|]).
  apply (unmapped_code_gets_default float_repr
           (Response 200 (Ok sample_counties)) start start
           sample_frame (joined sample_frame) 3 _ "53" "999");
    try assumption; vm_compute; reflexivity.
Defined.

Lemma bad_status_aborts_the_run_witness :
  404 ≠ 200
  ∧ create_wa_minimum_wage_map float_repr
      (Response 404 (Ok sample_counties)) start
    = (logged [ApiRequestFailed 404; ErrorGettingCountyData fetch_failed]
         start,
       Err fetch_failed).
Proof.
  assert (404 ≠ 200) as Hstatus by lia.
  split; [exact Hstatus|].
  apply (bad_status_aborts_the_run float_repr 404 (Ok sample_counties) start
           Hstatus).
Defined.

(** ** The strings and a whole run, evaluated *)

(** What the three rates print as, and the three display strings. *)
Example display_strings :
  float_repr 30.09 = "30.09" ∧ float_repr 26.54 = "26.54"
  ∧ float_repr 23.70 = "23.7"
  ∧ text_of float_repr KingOverride = "30.09 Canadian Dollars an hour"
  ∧ text_of float_repr WhatcomOverride
    = "26.54 Canadian Dollars an hour starting May 1st"
  ∧ text_of float_repr DefaultRate = "23.7 Canadian Dollars an hour".
Proof. repeat split; vm_compute; reflexivity. Qed.

(** The sample document goes through the whole pipeline: the Oregon
    county is dropped, the four Washington rows are styled in the order
    of the document, one file is written and its name printed. *)
Example sample_run :
  ∃ w,
    create_wa_minimum_wage_map float_repr
      (Response 200 (Ok sample_counties)) start
    = (w, Ok output_name)
    ∧ console w = [MapSaved output_name]
    ∧ dom (files w) = {[ output_name ]}
    ∧ saved_styles <$> files w !! output_name
      = Some [rich_gold; medium_gold; light_gold; light_gold].
Proof.
  eexists. split; [vm_compute; reflexivity|].
  repeat split; vm_compute; reflexivity.
Qed.

(** ** More on the loader: when it succeeds and how it fails *)

Lemma select_state_Err (fs : list feature) (e : exn) :
  select_state fs = Err e →
  e = KeyError "STATE" ∧ Exists (λ f, properties f !! "STATE" = None) fs.
Proof.
  induction fs as [|f fs IH]; simpl; [discriminate|].
  unfold getitem.
  destruct (properties f !! "STATE") as [state|] eqn:Hstate; simpl.
  - destruct (select_state fs) as [rest|e']; simpl; [discriminate|].
    intros [= <-]. destruct (IH eq_refl) as [-> Hex]. split; [done|].
    by apply Exists_cons_tl.
  - intros [= <-]. split; [done|]. by apply Exists_cons_hd.
Qed.

Lemma select_state_missing (fs : list feature) :
  Exists (λ f, properties f !! "STATE" = None) fs →
  select_state fs = Err (KeyError "STATE").
Proof.
  intros Hex. destruct (select_state fs) as [sel|e] eqn:Hsel.
  - exfalso. revert sel Hsel.
    induction Hex as [f fs Hf|f fs _ IH]; intros sel; simpl; unfold getitem.
    + by rewrite Hf.
    + destruct (properties f !! "STATE"); simpl; [|discriminate].
      destruct (select_state fs) as [rest|]; simpl; [|discriminate].
      intros _. by apply (IH rest).
  - by apply select_state_Err in Hsel as [-> _].
Qed.

Lemma add_county_name_error (f : feature) (e : exn) :
  has_state "53" f → county_error f = Some e → add_county_name f = Err e.
Proof.
  unfold has_state, county_error, add_county_name, getitem. intros Hs.
  destruct (properties f !! "COUNTY") as [v|]; simpl; [|by intros [= <-]].
  rewrite Hs; simpl.
  by destruct v; intros [= <-].
Qed.

Lemma add_county_name_no_error (f : feature) :
  has_state "53" f → county_error f = None →
  ∃ c, properties f !! "COUNTY" = Some (VStr c)
       ∧ add_county_name f
         = Ok (with_names (default "Unknown" (county_names !! ("53" ++ c))) f).
Proof.
  unfold county_error. intros Hs Hc.
  destruct (properties f !! "COUNTY") as [[| | | |c| |]|] eqn:Hcounty;
    try discriminate.
  exists c. split; [done|]. by apply add_county_name_str.
Qed.

Lemma county_error_None (f : feature) :
  county_error f = None ↔ ∃ c, properties f !! "COUNTY" = Some (VStr c).
Proof.
  unfold county_error.
  destruct (properties f !! "COUNTY") as [[| | | |c| |]|];
    (split; [try discriminate; eauto|intros [? [=]]; done]).
Qed.

(** The enrichment loop stops at the first feature it cannot name. *)
Lemma mapM_add_county_name_error (good rest : list feature) (f : feature)
    (e : exn) :
  Forall (λ g, has_state "53" g ∧ county_error g = None) good →
  has_state "53" f → county_error f = Some e →
  mapM add_county_name (good ++ f :: rest) = Err e.
Proof.
  intros Hgood Hs He. induction Hgood as [|g good [Hg Hc] _ IH]; simpl.
  - by rewrite (add_county_name_error f e).
  - destruct (add_county_name_no_error g Hg Hc) as (c & _ & ->). simpl.
    by rewrite IH.
Qed.

Lemma mapM_add_county_name_Ok (sel : list feature) :
  Forall (λ g, has_state "53" g ∧ county_error g = None) sel →
  ∃ named, mapM add_county_name sel = Ok named.
Proof.
  induction 1 as [|g sel [Hg Hc] _ [named IH]]; simpl; [by eexists|].
  destruct (add_county_name_no_error g Hg Hc) as (c & _ & ->). simpl.
  rewrite IH. simpl. by eexists.
Qed.

Lemma get_wa_counties_200 (all : list feature) (w : world) :
  get_wa_counties (Response 200 (Ok all)) w
  = match select_state all ≫= mapM add_county_name with
    | Ok named => (w, Ok (from_features named "EPSG:4326"))
    | Err e => (logged [ErrorGettingCountyData e] w, Err e)
    end.
Proof.
  unfold get_wa_counties, try_except, mbind at 1 2 3, M_bind, lift; simpl.
  destruct (select_state all) as [sel|e]; simpl; [|done].
  by destruct (mapM add_county_name sel).
Qed.

(** X1.  When the loader returns a frame, the fetch was a 200 response
    whose document decoded, every feature of the document, of whatever
    state, has a STATE property, and every feature whose STATE is "53"
    has a str COUNTY; the frame has one row for each of these Washington
    features and the CRS "EPSG:4326", and the load printed nothing and
    left the files alone. *)
Theorem load_succeeds_only_when (net : fetch) (w w' : world)
    (gdf : GeoDataFrame) :
  get_wa_counties net w = (w', Ok gdf) →
  w' = w
  ∧ crs gdf = "EPSG:4326"
  ∧ ∃ all_counties,
      net = Response 200 (Ok all_counties)
      ∧ Forall (λ f, is_Some (properties f !! "STATE")) all_counties
      ∧ Forall (λ f, has_state "53" f →
                     ∃ c, properties f !! "COUNTY" = Some (VStr c))
          all_counties
      ∧ length (rows gdf)
        = length (filter (has_state "53") all_counties).
Proof.
  intros Hload.
  destruct (get_wa_counties_Ok _ _ _ _ Hload) as (-> & Hcrs & _).
  split; [done|]. split; [done|].
  destruct (loaded_rows _ _ _ _ Hload) as (all & -> & Hrows).
  exists all. split; [done|].
  rewrite get_wa_counties_200 in Hload.
  destruct (select_state all) as [sel|e] eqn:Hsel; simpl in Hload;
    [|discriminate].
  split; [|split].
  - apply Forall_forall. intros f Hf.
    destruct (properties f !! "STATE") eqn:Hs; [done|].
    rewrite select_state_missing in Hsel; [discriminate|].
    apply Exists_exists. eauto.
  - apply Forall_forall. intros f Hf Hs.
    assert (f ∈ filter (has_state "53") all) as Hin
      by by apply list_elem_of_filter.
    apply list_elem_of_lookup in Hin as [i Hi].
    destruct (Forall2_lookup_l _ _ _ _ _ Hrows Hi) as (r & _ & _ & Hr).
    apply (add_county_name_Ok _ _ "53") in Hr as (c & Hc & _); eauto.
  - symmetry. by eapply Forall2_length.
Qed.

Lemma load_succeeds_only_when_witness :
  get_wa_counties (Response 200 (Ok sample_counties)) start
  = (start, Ok sample_frame)
  ∧ crs sample_frame = "EPSG:4326"
  ∧ length (rows sample_frame) = 4%nat.
Proof.
  assert (get_wa_counties (Response 200 (Ok sample_counties)) start
          = (start, Ok sample_frame)) as Hload by (vm_compute; reflexivity).
  split; [exact Hload|].
  destruct (load_succeeds_only_when _ _ _ _ Hload)
    as (_ & Hcrs & all & Hall & _ & _ & Hlen).
  split; [exact Hcrs|].
  injection Hall as <-. rewrite Hlen. vm_compute. reflexivity.
Defined.

(** X2.  One feature without a STATE property anywhere in the document,
    in Washington or not, makes the load fail: KeyError('STATE') is
    printed and raised. *)
Theorem missing_state_fails_the_load (all_counties : list feature) (w : world) :
  Exists (λ f, properties f !! "STATE" = None) all_counties →
  get_wa_counties (Response 200 (Ok all_counties)) w
  = (logged [ErrorGettingCountyData (KeyError "STATE")] w,
     Err (KeyError "STATE")).
Proof.
  intros Hex. by rewrite get_wa_counties_200, select_state_missing.
Qed.

Lemma missing_state_fails_the_load_witness :
  get_wa_counties (Response 200 (Ok no_state_counties)) start
  = (logged [ErrorGettingCountyData (KeyError "STATE")] start,
     Err (KeyError "STATE")).
Proof.
  apply missing_state_fails_the_load.
  apply Exists_cons_tl, Exists_cons_hd. vm_compute. reflexivity.
Defined.

(** X3.  When every feature has a STATE, the load fails at the first
    Washington feature that cannot be named, with a KeyError('COUNTY')
    if it has no COUNTY and a TypeError if its COUNTY is no str; the
    exception is printed and raised, and no frame is returned for the
    features before it. *)
Theorem first_bad_county_fails_the_load (all_counties good rest : list feature)
    (f : feature) (e : exn) (w : world) :
  Forall (λ f, is_Some (properties f !! "STATE")) all_counties →
  filter (has_state "53") all_counties = (good ++ f :: rest)%list →
  Forall (λ g, county_error g = None) good →
  county_error f = Some e →
  get_wa_counties (Response 200 (Ok all_counties)) w
  = (logged [ErrorGettingCountyData e] w, Err e).
Proof.
  intros Hstate Hsel Hgood He.
  rewrite get_wa_counties_200, (select_state_total _ Hstate), Hsel. simpl.
  assert (Forall (has_state "53") (good ++ f :: rest)%list) as Hall.
  { rewrite <- Hsel. apply Forall_forall.
    by intros g [? _]%list_elem_of_filter. }
  apply Forall_app in Hall as [Hg Hf]. inversion_clear Hf as [|? ? Hf' _].
  rewrite (mapM_add_county_name_error good rest f e); [done| |done|done].
  apply Forall_forall. intros g Hin. split.
  - by apply (proj1 (Forall_forall _ _) Hg).
  - by apply (proj1 (Forall_forall _ _) Hgood).
Qed.

Lemma first_bad_county_fails_the_load_witness :
  get_wa_counties (Response 200 (Ok no_county_counties)) start
  = (logged [ErrorGettingCountyData (KeyError "COUNTY")] start,
     Err (KeyError "COUNTY")).
Proof.
  apply (first_bad_county_fails_the_load no_county_counties
           [county_feature "53" "033"] [county_feature "53" "073"]
           (Feature VNone {[ "STATE" := VStr "53" ]})).
  - repeat constructor; vm_compute; eauto.
  - vm_compute. reflexivity.
  - repeat constructor.
  - vm_compute. reflexivity.
Defined.

Lemma loaded_row_codes net w w' gdf i r :
  get_wa_counties net w = (w', Ok gdf) →
  rows gdf !! i = Some r →
  ∃ f c, filter (has_state "53") (match net with
                                  | Response _ (Ok all) => all
                                  | _ => []
                                  end) !! i = Some f
         ∧ properties f !! "COUNTY" = Some (VStr c)
         ∧ r = with_names (default "Unknown" (county_names !! ("53" ++ c))) f
         ∧ properties r !! "STATE" = Some (VStr "53")
         ∧ properties r !! "COUNTY" = Some (VStr c).
Proof.
  intros (all & -> & Hrows)%loaded_rows Hi.
  destruct (Forall2_lookup_r _ _ _ _ _ Hrows Hi) as (f & Hf & Hs & Hr).
  apply (add_county_name_Ok _ _ "53") in Hr as (c & Hc & ->); [|done].
  exists f, c. rewrite !with_names_other by done. done.
Qed.

(** X4.  The NAME of a loaded row is what the table has for its own
    STATE and COUNTY codes, or "Unknown": a NAME the document brought is
    overwritten. *)
Theorem name_comes_from_the_codes net w w' gdf i r :
  get_wa_counties net w = (w', Ok gdf) →
  rows gdf !! i = Some r →
  ∃ c, properties r !! "STATE" = Some (VStr "53")
       ∧ properties r !! "COUNTY" = Some (VStr c)
       ∧ properties r !! "NAME"
         = Some (VStr (default "Unknown" (county_names !! ("53" ++ c)))).
Proof.
  intros Hload Hi.
  destruct (loaded_row_codes _ _ _ _ _ _ Hload Hi)
    as (f & c & _ & _ & -> & Hs & Hc).
  exists c. split; [done|]. split; [done|]. apply with_names_NAME.
Qed.

Lemma name_comes_from_the_codes_witness :
  properties mislabelled_feature !! "NAME" = Some (VStr "King")
  ∧ ∃ r, rows (loaded (Response 200 (Ok [mislabelled_feature]))) !! 0%nat
         = Some r
         ∧ properties r !! "NAME" = Some (VStr "Adams").
Proof.
  split; [vm_compute; reflexivity|].
  destruct (name_comes_from_the_codes
              (Response 200 (Ok [mislabelled_feature])) start start
              (loaded (Response 200 (Ok [mislabelled_feature]))) 0
              (with_names "Adams" mislabelled_feature))
    as (c & _ & Hc & Hname); [vm_compute; reflexivity..|].
  exists (with_names "Adams" mislabelled_feature).
  split; [vm_compute; reflexivity|].
  vm_compute. reflexivity.
Defined.

Lemma filter_all {A} (P : A → Prop) `{!∀ x, Decision (P x)} (l : list A) :
  Forall P l → filter P l = l.
Proof.
  induction 1 as [|x l Hx _ IH]; [done|].
  rewrite filter_cons_True by done. by rewrite IH.
Qed.

(** X5.  A frame loaded from a document is also what the loader returns
    from the Washington features of that document alone. *)
Theorem other_states_do_not_matter (all_counties : list feature) w w' gdf :
  get_wa_counties (Response 200 (Ok all_counties)) w = (w', Ok gdf) →
  get_wa_counties
    (Response 200 (Ok (filter (has_state "53") all_counties))) w
  = (w', Ok gdf).
Proof.
  intros Hload. pose proof Hload as Hload'.
  apply get_wa_counties_Ok in Hload' as (-> & Hcrs & all & [= <-] & Hrows).
  assert (Forall (has_state "53") (filter (has_state "53") all_counties))
    as Hsel.
  { apply Forall_forall. by intros f [? _]%list_elem_of_filter. }
  rewrite get_wa_counties_200, select_state_total, (filter_all _ _ Hsel).
  - simpl. rewrite Hrows. destruct gdf as [x l]; simpl in *. by subst.
  - eapply Forall_impl; [exact Hsel|]. unfold has_state. by intros f ->.
Qed.

Lemma other_states_do_not_matter_witness :
  filter (has_state "53") sample_counties ≠ sample_counties
  ∧ get_wa_counties
      (Response 200 (Ok (filter (has_state "53") sample_counties))) start
    = (start, Ok sample_frame).
Proof.
  split; [vm_compute; discriminate|].
  apply other_states_do_not_matter. vm_compute. reflexivity.
Defined.

#[local] Transparent county_names.

Lemma county_names_elem (code n : string) :
  county_names !! code = Some n →
  (code, n) ∈ [
    ("53001", "Adams"); ("53003", "Asotin"); ("53005", "Benton");
    ("53007", "Chelan"); ("53009", "Clallam"); ("53011", "Clark");
    ("53013", "Columbia"); ("53015", "Cowlitz"); ("53017", "Douglas");
    ("53019", "Ferry"); ("53021", "Franklin"); ("53023", "Garfield");
    ("53025", "Grant"); ("53027", "Grays Harbor"); ("53029", "Island");
    ("53031", "Jefferson"); ("53033", "King"); ("53035", "Kitsap");
    ("53037", "Kittitas"); ("53039", "Klickitat"); ("53041", "Lewis");
    ("53043", "Lincoln"); ("53045", "Mason"); ("53047", "Okanogan");
    ("53049", "Pacific"); ("53051", "Pend Oreille"); ("53053", "Pierce");
    ("53055", "San Juan"); ("53057", "Skagit"); ("53059", "Skamania");
    ("53061", "Snohomish"); ("53063", "Spokane"); ("53065", "Stevens");
    ("53067", "Thurston"); ("53069", "Wahkiakum"); ("53071", "Walla Walla");
    ("53073", "Whatcom"); ("53075", "Whitman"); ("53077", "Yakima")
  ].
Proof. apply elem_of_list_to_map_2. Qed.

#[local] Opaque county_names.

Ltac table_cases H :=
  repeat (apply elem_of_cons in H as [H|H]; [try by simplify_eq/=|]);
  try by apply elem_of_nil in H.

Lemma county_names_King (c : string) :
  default "Unknown" (county_names !! ("53" ++ c)) = "King" ↔ c = "033".
Proof.
  split; [|intros ->; vm_compute; reflexivity].
  destruct (county_names !! ("53" ++ c)) as [n|] eqn:Hn; simpl;
    [|discriminate].
  intros ->. apply county_names_elem in Hn. table_cases Hn.
  injection Hn as Hc. exact Hc.
Qed.

Lemma county_names_Whatcom (c : string) :
  default "Unknown" (county_names !! ("53" ++ c)) = "Whatcom" ↔ c = "073".
Proof.
  split; [|intros ->; vm_compute; reflexivity].
  destruct (county_names !! ("53" ++ c)) as [n|] eqn:Hn; simpl;
    [|discriminate].
  intros ->. apply county_names_elem in Hn. table_cases Hn.
  injection Hn as Hc. exact Hc.
Qed.

(** ** More on the join and the whole run *)

Lemma py_eq_float_tier (t : tier) :
  py_eq_float (VFloat (rate_of t)) 30.09
  = match t with KingOverride => true | _ => false end
  ∧ py_eq_float (VFloat (rate_of t)) 26.54
    = match t with WhatcomOverride => true | _ => false end.
Proof. destruct t; split; vm_compute; reflexivity. Qed.

Lemma tier_of_ext (r j : feature) :
  properties j !! "NAME" = properties r !! "NAME" → tier_of j = tier_of r.
Proof. intros Heq. unfold tier_of, named. by rewrite Heq. Qed.

Ltac unfold_wage_join := unfold wage_join, set_column.
Ltac unfold_create := unfold create_wa_minimum_wage_map.

Section run_properties.

Variable float_str : float → string.

#[local] Abbreviation wage_text := (wage_text float_str).
#[local] Abbreviation text_of := (text_of float_str).
#[local] Abbreviation joined_row := (joined_row float_str).
#[local] Abbreviation wage_join := (wage_join float_str).
#[local] Abbreviation create_wa_minimum_wage_map :=
  (create_wa_minimum_wage_map float_str).

Lemma wage_join_result (df : GeoDataFrame) :
  wage_join df
  = if has_column "NAME" df
    then Ok {| crs := crs df; rows := joined_row <$> rows df |}
    else Err (KeyError "NAME").
Proof.
  destruct (has_column "NAME" df) eqn:Hname.
  - by apply wage_join_rows.
  - destruct df as [x l]. unfold_wage_join; cbn [rows crs].
    rewrite has_column_false_fmap; [done| |done].
    intros r. unfold set_property; cbn [properties].
    by rewrite lookup_insert_ne.
Qed.

Lemma has_column_false (c : string) (df : GeoDataFrame) :
  has_column c df = false ↔ Forall (λ r, properties r !! c = None) (rows df).
Proof.
  unfold has_column. rewrite Forall_forall. split.
  - intros Hex r Hr. destruct (properties r !! c) as [v|] eqn:Hc; [|done].
    assert (existsb (λ r, bool_decide (is_Some (properties r !! c))) (rows df)
            = true) as Htrue; [|congruence].
    apply existsb_exists. exists r. split; [by apply list_elem_of_In|].
    apply bool_decide_eq_true. by rewrite Hc.
  - intros Hnone.
    destruct (existsb _ (rows df)) eqn:Hex; [|done].
    apply existsb_exists in Hex as (r & Hr%list_elem_of_In & Hc).
    apply bool_decide_eq_true in Hc as [v Hv]. rewrite Hnone in Hv; done.
Qed.

(** X6.  The wage join fails exactly on a frame none of whose rows has a
    NAME (an empty frame among them), and then with KeyError('NAME'). *)
Theorem join_fails_exactly_without_names (df : GeoDataFrame) :
  ((∃ e, wage_join df = Err e)
   ↔ Forall (λ r, properties r !! "NAME" = None) (rows df))
  ∧ (∀ e, wage_join df = Err e → e = KeyError "NAME").
Proof.
  rewrite wage_join_result, <- has_column_false.
  destruct (has_column "NAME" df); split.
  - split; [intros [e [=]]|discriminate].
  - discriminate.
  - split; [done|eauto].
  - by intros e [= <-].
Qed.

Lemma joined_row_joined_from (r : feature) : joined_from r (joined_row r).
Proof. split; [done|]. intros k. apply joined_row_other. Qed.

(** X7.  The wage join keeps the CRS, the number and the order of the
    rows, and in every row the geometry and every column but
    min_wage_numeric and min_wage_cad. *)
Theorem join_keeps_the_rows (df joined : GeoDataFrame) :
  wage_join df = Ok joined →
  crs joined = crs df ∧ Forall2 joined_from (rows df) (rows joined).
Proof.
  intros ->%wage_join_Ok. split; [done|]. cbn [rows].
  apply Forall2_fmap_r, Forall_Forall2_diag, Forall_forall.
  intros r _. apply joined_row_joined_from.
Qed.

Lemma style_function_joined_row (r : feature) :
  style_function (joined_row r) = Ok (style_of (tier_of r)).
Proof.
  unfold style_function, getitem.
  destruct (joined_row_carries float_str r) as [-> _].
  cbn [mbind result_bind].
  destruct (py_eq_float_tier (tier_of r)) as [-> ->].
  by destruct (tier_of r).
Qed.

(** X9.  On a joined row the style function never fails: a row named
    "King" gets the rich gold, a row named "Whatcom" the medium gold and
    any other row the light gold, whatever min_wage_numeric the row had
    before the join. *)
Theorem style_matches_the_name (df joined : GeoDataFrame) (i : nat)
    (j : feature) :
  wage_join df = Ok joined →
  rows joined !! i = Some j →
  (has_name "King" j → style_function j = Ok rich_gold)
  ∧ (has_name "Whatcom" j → style_function j = Ok medium_gold)
  ∧ (¬ has_name "King" j → ¬ has_name "Whatcom" j →
     style_function j = Ok light_gold).
Proof.
  intros ->%wage_join_Ok (r & -> & _)%list_lookup_fmap_Some.
  rewrite style_function_joined_row, !joined_row_has_name.
  split; [|split].
  - by intros ->%tier_of_king.
  - by intros ->%tier_of_whatcom.
  - intros Hk Hw. by rewrite (proj2 (tier_of_default r)).
Qed.

(** X8.  After load and join a row has a str COUNTY, and its rate is
    30.09 exactly for the county code "033", 26.54 exactly for "073" and
    23.70 exactly for every other code. *)
Theorem override_goes_by_the_county_code net w w' gdf joined i j :
  get_wa_counties net w = (w', Ok gdf) →
  wage_join gdf = Ok joined →
  rows joined !! i = Some j →
  ∃ c, properties j !! "COUNTY" = Some (VStr c)
       ∧ (properties j !! "min_wage_numeric" = Some (VFloat 30.09)
          ↔ c = "033")
       ∧ (properties j !! "min_wage_numeric" = Some (VFloat 26.54)
          ↔ c = "073")
       ∧ (properties j !! "min_wage_numeric" = Some (VFloat 23.70)
          ↔ c ≠ "033" ∧ c ≠ "073").
Proof.
  intros Hload ->%wage_join_Ok (r & -> & Hi)%list_lookup_fmap_Some.
  destruct (loaded_row_codes _ _ _ _ _ _ Hload Hi)
    as (f & c & _ & _ & Hr & _ & Hc).
  exists c. rewrite joined_row_other by done. split; [done|].
  destruct (joined_row_carries float_str r) as [-> _].
  assert (∀ t, Some (VFloat (rate_of (tier_of r))) = Some (VFloat (rate_of t))
               ↔ tier_of r = t) as Hrate.
  { intros t. split; [|by intros ->].
    intros [= Heq]. by apply rate_of_inj. }
  assert (∀ n, has_name n r
               ↔ default "Unknown" (county_names !! ("53" ++ c)) = n)
    as Hname.
  { intros n. unfold has_name. rewrite Hr, with_names_NAME.
    split; [by intros [= ->]|by intros ->]. }
  rewrite (Hrate KingOverride), (Hrate WhatcomOverride), (Hrate DefaultRate).
  rewrite tier_of_king, tier_of_whatcom, tier_of_default, !Hname.
  by rewrite county_names_King, county_names_Whatcom.
Qed.

Lemma render_joined (features : list feature) :
  (∀ j, j ∈ features → style_function j = Ok (style_of (tier_of j))) →
  mapM (λ f, st ← style_function f; Ok (f, st)) features
  = Ok ((λ j, (j, style_of (tier_of j))) <$> features).
Proof.
  intros Hstyle. apply mapM_fmap_Ok. intros j Hj. by rewrite Hstyle.
Qed.

(** The run, stage by stage: the loader's failure, the join's failure, or
    the document saved under the fixed name. *)
Lemma create_wa_minimum_wage_map_result (net : fetch) (w : world) :
  create_wa_minimum_wage_map net w
  = match get_wa_counties net w with
    | (w1, Err e) => (w1, Err e)
    | (w1, Ok gdf) =>
        match wage_join gdf with
        | Err e => (w1, Err e)
        | Ok joined => (saved (map_document (rows joined)) w1, Ok output_name)
        end
    end.
Proof.
  unfold_create. unfold mbind at 1, M_bind.
  destruct (get_wa_counties net w) as [w1 [gdf|e]]; [|done].
  unfold mbind at 1, M_bind, lift.
  destruct (wage_join gdf) as [joined'|e] eqn:Hjoin; [|done].
  pose proof (wage_join_Ok _ _ _ Hjoin) as ->.
  unfold save, render, render_layer, add_html, add_layer, geo_interface.
  cbn [layers data layer_style_function rows app mapM].
  unfold mbind at 3. unfold M_bind at 1, lift.
  rewrite render_joined.
  - reflexivity.
  - intros j (r & -> & _)%list_elem_of_fmap.
    rewrite style_function_joined_row. f_equal. f_equal. symmetry.
    apply tier_of_ext, joined_row_other; done.
Qed.

Lemma loaded_has_name_column net w w' gdf :
  get_wa_counties net w = (w', Ok gdf) →
  rows gdf ≠ [] →
  has_column "NAME" gdf = true.
Proof.
  intros Hload Hrows. destruct (rows gdf) as [|r l] eqn:Hl; [done|].
  destruct (loaded_row_codes _ _ _ _ 0%nat r Hload) as (f & c & _ & _ & -> & _);
    [by rewrite Hl|].
  unfold has_column. rewrite Hl. cbn [existsb]. rewrite with_names_NAME.
  by rewrite bool_decide_eq_true_2 by eauto.
Qed.

Lemma get_wa_counties_Err_lines net w w' e :
  get_wa_counties net w = (w', Err e) →
  ∃ before, w' = logged (before ++ [ErrorGettingCountyData e]) w
            ∧ ∀ n, MapSaved n ∉ before.
Proof.
  destruct net as [e0|status json].
  - intros [= <- <-]. exists []. split; [done|]. intros n Hn. inversion Hn.
  - destruct (decide (status = 200)) as [->|Hstatus].
    + destruct json as [all|e0].
      * rewrite get_wa_counties_200.
        destruct (select_state all ≫= mapM add_county_name); [discriminate|].
        intros [= <- <-]. exists []. split; [done|]. intros n Hn. inversion Hn.
      * intros [= <- <-]. exists []. split; [done|]. intros n Hn. inversion Hn.
    + rewrite get_wa_counties_bad_status by done. intros [= <- <-].
      exists [ApiRequestFailed status]. split; [done|].
      intros n Hn. apply list_elem_of_singleton in Hn. discriminate.
Qed.

(** X10.  When the loader returns a frame with at least one row, the run
    returns the fixed file name, prints the one confirmation line and
    writes under that name, over whatever was there and leaving every
    other file, a document with the legend and then the title, and one
    layer "Washington Counties" with one feature for each loaded row,
    in their order, which has the NAME of the row, the rate and the
    display string of the row's tier, and the style of that tier. *)
Theorem loaded_rows_are_saved net w w' gdf :
  get_wa_counties net w = (w', Ok gdf) →
  rows gdf ≠ [] →
  ∃ doc layer,
    create_wa_minimum_wage_map net w
    = ({| console := console w ++ [MapSaved output_name];
          files := <[output_name := doc]> (files w) |},
       Ok output_name)
    ∧ doc_html doc = [legend_html; title_html]
    ∧ doc_layers doc = [layer]
    ∧ styled_name layer = "Washington Counties"
    ∧ Forall2 (λ (r : feature) (fs : feature * style),
                 properties fs.1 !! "NAME" = properties r !! "NAME"
                 ∧ carries fs.1 (rate_of (tier_of r)) (text_of (tier_of r))
                 ∧ fs.2 = style_of (tier_of r))
        (rows gdf) (styled_features layer).
Proof.
  intros Hload Hrows.
  rewrite create_wa_minimum_wage_map_result, Hload, wage_join_result.
  rewrite (loaded_has_name_column _ _ _ _ Hload Hrows).
  apply get_wa_counties_Ok in Hload as (-> & _).
  eexists _, _. split; [reflexivity|].
  split; [done|]. split; [done|]. split; [done|].
  cbn [styled_features rows]. rewrite <- list_fmap_compose.
  apply Forall2_fmap_r, Forall_Forall2_diag, Forall_forall.
  intros r _. unfold compose. cbn [fst snd].
  assert (tier_of (joined_row r) = tier_of r) as ->
    by (apply tier_of_ext, joined_row_other; done).
  split; [by apply joined_row_other|].
  split; [apply joined_row_carries|done].
Qed.

(** X11.  In the document of a run that succeeds, every feature of every
    layer has each field of the layer's tooltip as a str property. *)
Theorem tooltip_fields_are_columns net w w' name :
  create_wa_minimum_wage_map net w = (w', Ok name) →
  ∃ doc,
    files w' !! name = Some doc
    ∧ Forall (λ layer,
        Forall (λ fs : feature * style,
          Forall (λ field, ∃ s, properties fs.1 !! field = Some (VStr s))
            (fields (styled_tooltip layer)))
          (styled_features layer))
        (doc_layers doc).
Proof.
  rewrite create_wa_minimum_wage_map_result.
  destruct (get_wa_counties net w) as [w1 [gdf|e]] eqn:Hload; [|discriminate].
  destruct (wage_join gdf) as [joined'|e] eqn:Hjoin; [|discriminate].
  apply wage_join_Ok in Hjoin as ->. intros [= <- <-].
  eexists. split; [apply lookup_insert_eq|].
  repeat constructor. cbn [styled_features styled_tooltip rows].
  apply Forall_forall. intros [j st] (j' & [= <- _] & Hj)%list_elem_of_fmap.
  apply list_elem_of_fmap in Hj as (r & -> & Hr).
  apply list_elem_of_lookup in Hr as [i Hi].
  destruct (loaded_row_codes _ _ _ _ _ _ Hload Hi) as (f & c & _ & _ & -> & _).
  cbn [fst county_tooltip fields]. repeat constructor.
  - rewrite joined_row_other, with_names_NAME by done. eauto.
  - destruct (joined_row_carries float_str
                (with_names (default "Unknown" (county_names !! ("53" ++ c))) f))
      as [_ ->]. eauto.
Qed.

(** X12.  A run that raises leaves every file as it was and prints no
    confirmation line. *)
Theorem failed_run_writes_nothing net w w' e :
  create_wa_minimum_wage_map net w = (w', Err e) →
  files w' = files w
  ∧ ∃ lines, console w' = (console w ++ lines)%list
             ∧ ∀ n, MapSaved n ∉ lines.
Proof.
  rewrite create_wa_minimum_wage_map_result.
  destruct (get_wa_counties net w) as [w1 [gdf|e1]] eqn:Hload.
  - apply get_wa_counties_Ok in Hload as (-> & _).
    destruct (wage_join gdf); [discriminate|]. intros [= <- <-].
    split; [done|]. exists []. split; [by rewrite app_nil_r|].
    intros n Hn. inversion Hn.
  - intros [= <- <-].
    apply get_wa_counties_Err_lines in Hload as (before & -> & Hbefore).
    split; [done|]. eexists. split; [done|].
    intros n [Hn|Hn]%elem_of_app; [by apply (Hbefore n)|].
    apply list_elem_of_singleton in Hn. discriminate.
Qed.

End run_properties.

Lemma join_keeps_the_rows_witness :
  wage_join float_repr sample_frame = Ok (joined sample_frame)
  ∧ crs (joined sample_frame) = crs sample_frame
  ∧ Forall2 joined_from (rows sample_frame) (rows (joined sample_frame)).
Proof.
  assert (wage_join float_repr sample_frame = Ok (joined sample_frame))
    as Hjoin by (vm_compute; reflexivity).
  split; [exact Hjoin|].
  exact (join_keeps_the_rows float_repr _ _ Hjoin).
Defined.

Lemma style_matches_the_name_witness :
  has_name "King" (joined_row float_repr
                     (with_names "King" (county_feature "53" "033")))
  ∧ style_function (joined_row float_repr
                      (with_names "King" (county_feature "53" "033")))
    = Ok rich_gold.
Proof.
  assert (has_name "King"
            (joined_row float_repr
               (with_names "King" (county_feature "53" "033")))) as Hking
    by (vm_compute; reflexivity).
  split; [exact Hking|].
  destruct (style_matches_the_name float_repr sample_frame
              (joined sample_frame) 0
              (joined_row float_repr
                 (with_names "King" (county_feature "53" "033"))))
    as (Hrich & _); [vm_compute; reflexivity..|].
  exact (Hrich Hking).
Defined.

Lemma override_goes_by_the_county_code_witness :
  ∃ c, properties (joined_row float_repr
                     (with_names "Whatcom" (county_feature "53" "073")))
         !! "COUNTY" = Some (VStr c)
       ∧ (properties (joined_row float_repr
                        (with_names "Whatcom" (county_feature "53" "073")))
            !! "min_wage_numeric" = Some (VFloat 26.54)
          ↔ c = "073").
Proof.
  destruct (override_goes_by_the_county_code float_repr
              (Response 200 (Ok sample_counties)) start start sample_frame
              (joined sample_frame) 1
              (joined_row float_repr
                 (with_names "Whatcom" (county_feature "53" "073"))))
    as (c & Hc & _ & Hwhatcom & _); [vm_compute; reflexivity..|].
  exists c. split; assumption.
Defined.

Lemma loaded_rows_are_saved_witness :
  files used !! output_name = Some (map_document [])
  ∧ ∃ doc,
      create_wa_minimum_wage_map float_repr
        (Response 200 (Ok sample_counties)) used
      = ({| console := console used ++ [MapSaved output_name];
            files := <[output_name := doc]> (files used) |},
         Ok output_name)
      ∧ length (doc_layers doc ≫= styled_features) = 4%nat.
Proof.
  split; [vm_compute; reflexivity|].
  destruct (loaded_rows_are_saved float_repr
              (Response 200 (Ok sample_counties)) used used sample_frame)
    as (doc & layer & Hrun & _ & Hlayers & _ & Hfeatures);
    [vm_compute; reflexivity|vm_compute; discriminate|].
  exists doc. split; [exact Hrun|].
  rewrite Hlayers. simpl. rewrite app_nil_r.
  rewrite <- (Forall2_length _ _ _ Hfeatures).
  vm_compute. reflexivity.
Defined.

Lemma tooltip_fields_are_columns_witness :
  ∃ doc,
    files (create_wa_minimum_wage_map float_repr
             (Response 200 (Ok sample_counties)) start).1
      !! output_name = Some doc
    ∧ Forall (λ layer,
        Forall (λ fs : feature * style,
          Forall (λ field, ∃ s, properties fs.1 !! field = Some (VStr s))
            (fields (styled_tooltip layer)))
          (styled_features layer))
        (doc_layers doc).
Proof.
  apply (tooltip_fields_are_columns float_repr
           (Response 200 (Ok sample_counties)) start).
  vm_compute. reflexivity.
Defined.

Lemma failed_run_writes_nothing_witness :
  create_wa_minimum_wage_map float_repr
    (Response 200 (Ok no_county_counties)) used
  = (logged [ErrorGettingCountyData (KeyError "COUNTY")] used,
     Err (KeyError "COUNTY"))
  ∧ files (logged [ErrorGettingCountyData (KeyError "COUNTY")] used)
    = files used.
Proof.
  assert (create_wa_minimum_wage_map float_repr
            (Response 200 (Ok no_county_counties)) used
          = (logged [ErrorGettingCountyData (KeyError "COUNTY")] used,
             Err (KeyError "COUNTY"))) as Hrun by (vm_compute; reflexivity).
  split; [exact Hrun|].
  exact (proj1 (failed_run_writes_nothing float_repr _ _ _ _ Hrun)).
Defined.

(** A frame whose rows bring no NAME cannot be joined; an empty frame is
    one of them. *)
Example join_without_names :
  wage_join float_repr (from_features [unmapped_feature] "EPSG:4326")
  = Err (KeyError "NAME")
  ∧ wage_join float_repr (from_features [] "EPSG:4326")
    = Err (KeyError "NAME").
Proof. split; vm_compute; reflexivity. Qed.
